(** * A shallow embedding of [google_pdf_chatbot.py]

    The development follows the class [GooglePDFChatbot]:

    - Python strings are [string]s, one [ascii] per character, for the
      characters with code points 0 to 255.  The built-ins [str.lower],
      [str.split], [in], [int] and the regular expression of
      [handle_quota_error] are written out on them as Python defines
      them on these characters.  The fixed messages of the program are
      kept as the bytes of the source file; they are only joined and
      compared.
    - [time.time()] and [time.sleep] act on a logical clock that is part
      of the state.  Time stamps are rationals, counted in seconds;
      statements take no time and [time.sleep d] advances the clock by [d].
    - Methods are computations in a state-and-exception monad [M]: a Python
      exception is the result [Raise msg], where [msg] is [str(e)].
    - The remote chat session is an oracle [send_message], given the number
      of messages sent before and the prompt; it is spoken to only when
      [self.chat] is set.
    - The count-down thread only prints; printing is not modelled.
      The delay read from an error message meets the limits Python puts
      on [int] of a string and on [time.sleep]; the sleeps of the rate
      limiter, of 60 seconds and one interval at most on a chatbot
      whose stamps are not in the future, are given without them.
    - [show_countdown] is given on its own, with what it prints; the
      methods that start it are given by their sleep.  Of what [main]
      prints the answers are kept.  The libraries [initialize] calls are
      functions that return or raise. *)

From Stdlib Require Import Bool Arith ZArith QArith Qround List Ascii String Lia Lqa.
Import ListNotations.

Local Open Scope string_scope.

(** ** Python built-ins on strings *)

Module Py.

(** [c.lower()] for one character: the letters A to Z, and the
    capital letters from 192 to 222 but for the sign at 215. *)
Definition lower_char (c : ascii) : ascii :=
  let n := nat_of_ascii c in
  if ((65 <=? n)%nat && (n <=? 90)%nat)
     || ((192 <=? n)%nat && (n <=? 222)%nat && negb (n =? 215)%nat)
  then ascii_of_nat (n + 32) else c.

(** [s.lower()] *)
Fixpoint lower (s : string) : string :=
  match s with
  | EmptyString => EmptyString
  | String c t => String (lower_char c) (lower t)
  end.

(** [c.isspace()], also the class [\s] of [re]:
    tab, line feed, vertical tab, form feed, carriage return,
    the separators 28 to 31, the space, the next-line character 133 and
    the no-break space 160. *)
Definition isspace (c : ascii) : bool :=
  let n := nat_of_ascii c in
  ((9 <=? n)%nat && (n <=? 13)%nat) || ((28 <=? n)%nat && (n <=? 32)%nat)
  || (n =? 133)%nat || (n =? 160)%nat.

(** [c.isdecimal()], also the class [\d] of [re]. *)
Definition isdigit (c : ascii) : bool :=
  let n := nat_of_ascii c in (48 <=? n)%nat && (n <=? 57)%nat.

(** [s.split()] (no separator): the maximal runs of characters that are
    not white space.  [word] is the run read so far. *)
Fixpoint split_from (word : string) (s : string) : list string :=
  match s with
  | EmptyString =>
      match word with EmptyString => [] | _ => [word] end
  | String c t =>
      if isspace c then
        match word with
        | EmptyString => split_from EmptyString t
        | _ => word :: split_from EmptyString t
        end
      else split_from (word ++ String c EmptyString) t
  end.

Definition split (s : string) : list string := split_from EmptyString s.

(** [needle in hay] *)
Fixpoint contains (needle hay : string) : bool :=
  if prefix needle hay then true
  else match hay with
       | EmptyString => false
       | String _ t => contains needle t
       end.

(** [int(q)] of a number: truncation towards zero. *)
Definition int (q : Q) : Z := Z.quot (Qnum q) (Zpos (Qden q)).

(** [int(s)] of a string of decimal digits. *)
Definition digit_value (c : ascii) : Z := Z.of_nat (nat_of_ascii c - 48).

Definition int_of_digits (s : string) : Z :=
  fold_left (fun acc c => 10 * acc + digit_value c)%Z (list_ascii_of_string s) 0%Z.

End Py.

(** ** Results and exceptions *)

Inductive result (A : Type) : Type :=
| Ok (a : A)
| Raise (msg : string).

Arguments Ok {A} a.
Arguments Raise {A} msg.

(** ** The relevance selector *)

(** [[word for word in question_lower.split() if len(word) > 3]] *)
Definition keywords_of (question : string) : list string :=
  let question_lower := Py.lower question in
  filter (fun word => (3 <? String.length word)%nat) (Py.split question_lower).

(** The inner loop of [find_relevant_chunk]: the number of keywords
    (counted with repetition) that occur in the lowered chunk. *)
Definition chunk_score (keywords : list string) (chunk : string) : nat :=
  let chunk_lower := Py.lower chunk in
  fold_left (fun score keyword =>
               if Py.contains keyword chunk_lower then (score + 1)%nat else score)
            keywords 0%nat.

(** One turn of the outer loop, on the pair [(best_chunk, best_score)]. *)
Definition select_step (keywords : list string)
    (best : string * nat) (chunk : string) : string * nat :=
  let score := chunk_score keywords chunk in
  if (snd best <? score)%nat then (chunk, score) else best.

(** [find_relevant_chunk], as a function of [self.text_chunks] and the
    question.  [self.text_chunks[0]] raises [IndexError] on the empty list. *)
Definition find_relevant_chunk (text_chunks : list string) (question : string)
  : result string :=
  let keywords := keywords_of question in
  match text_chunks with
  | [] => Raise "list index out of range"
  | first :: _ =>
      Ok (fst (fold_left (select_step keywords) text_chunks (first, 0%nat)))
  end.

(** ** The state *)

(** The object a [GenerativeModel] call returns; nothing is read from it. *)
Inductive GenerativeModel : Type := gemini_1_5_pro_latest.

(** The object [start_chat] returns; it is spoken to through the oracle
    [send_message]. *)
Inductive ChatSession : Type := chat_session.

(** The fields of [self] the methods read and write. *)
Record Chatbot : Type := mkChatbot {
  text_chunks : list string;
  model : option GenerativeModel;
  chat : option ChatSession;
  last_request_time : Q;
  min_request_interval : Q;
  requests_in_last_minute : Z;
  last_minute_start : Q;
  next_available_time : Q
}.

(** Calls the methods make, kept in a log (latest first). *)
Inductive Call : Type :=
| CallWaitForRateLimit
| CallFindRelevantChunk (question : string)
| CallSendMessage (prompt : string).

Record World : Type := mkWorld {
  self : Chatbot;
  now : Q;             (* what [time.time()] returns *)
  calls : list Call
}.

Definition set_requests_in_last_minute (n : Z) (b : Chatbot) : Chatbot :=
  mkChatbot (text_chunks b) (model b) (chat b) (last_request_time b)
            (min_request_interval b) n (last_minute_start b)
            (next_available_time b).

Definition set_last_minute_start (t : Q) (b : Chatbot) : Chatbot :=
  mkChatbot (text_chunks b) (model b) (chat b) (last_request_time b)
            (min_request_interval b) (requests_in_last_minute b) t
            (next_available_time b).

Definition set_last_request_time (t : Q) (b : Chatbot) : Chatbot :=
  mkChatbot (text_chunks b) (model b) (chat b) t
            (min_request_interval b) (requests_in_last_minute b)
            (last_minute_start b) (next_available_time b).

Definition set_next_available_time (t : Q) (b : Chatbot) : Chatbot :=
  mkChatbot (text_chunks b) (model b) (chat b) (last_request_time b)
            (min_request_interval b) (requests_in_last_minute b)
            (last_minute_start b) t.

(** [__init__], run when the clock shows [t]. *)
Definition init (t : Q) : Chatbot :=
  {| text_chunks := [];
     model := None;
     chat := None;
     last_request_time := 0;
     min_request_interval := 4;
     requests_in_last_minute := 0;
     last_minute_start := t;
     next_available_time := 0 |}.

(** ** The monad of methods *)

Definition M (A : Type) : Type := World -> result A * World.

Definition ret {A} (a : A) : M A := fun w => (Ok a, w).

Definition bind {A B} (m : M A) (k : A -> M B) : M B :=
  fun w => match m w with
           | (Ok a, w') => k a w'
           | (Raise msg, w') => (Raise msg, w')
           end.

Declare Scope py_scope.
Delimit Scope py_scope with py.
Notation "x <- m ;; k" := (bind m (fun x => k))
  (at level 100, m at next level, right associativity) : py_scope.
Notation "m ;; k" := (bind m (fun _ => k))
  (at level 100, right associativity) : py_scope.

(** [try: body except Exception as e: handler(str(e))] *)
Definition try_except {A} (body : M A) (handler : string -> M A) : M A :=
  fun w => match body w with
           | (Ok a, w') => (Ok a, w')
           | (Raise msg, w') => handler msg w'
           end.

(** A call into a library: it returns or raises, and leaves the state. *)
Definition call {A} (r : result A) : M A := fun w => (r, w).

(** [self.f] *)
Definition read {A} (f : Chatbot -> A) : M A := fun w => (Ok (f (self w)), w).

(** [self.f = v] *)
Definition write (f : Chatbot -> Chatbot) : M unit :=
  fun w => (Ok tt, mkWorld (f (self w)) (now w) (calls w)).

Definition log (c : Call) : M unit :=
  fun w => (Ok tt, mkWorld (self w) (now w) (c :: calls w)).

Definition Qlt_bool (x y : Q) : bool := negb (Qle_bool y x).

Definition time_time : M Q := fun w => (Ok (now w), w).

(** [time.sleep(d)]: a negative [d] raises [ValueError]. *)
Definition time_sleep (d : Q) : M unit :=
  fun w => if Qlt_bool d 0
           then (Raise "sleep length must be non-negative", w)
           else (Ok tt, mkWorld (self w) (now w + d) (calls w)).

(** Starting the count-down thread, sleeping, stopping and joining it.
    Every caller asks for a count-down of [int(d)] ticks of one second,
    which has run out when the sleep of [d] seconds ends. *)
Definition sleep_with_countdown (d : Q) : M unit := time_sleep d.

(** ** The rate limiter *)

Local Open Scope py_scope.

(** Lines 86 to 88: the window is over. *)
Definition window_check (current_time : Q) : M unit :=
  start <- read last_minute_start ;;
  if Qle_bool 60 (current_time - start) then
    write (set_requests_in_last_minute 0) ;;
    write (set_last_minute_start current_time)
  else ret tt.

(** Lines 90 to 103: the cap of 15 requests per minute. *)
Definition cap_check (current_time : Q) : M unit :=
  n <- read requests_in_last_minute ;;
  if (15 <=? n)%Z then
    start <- read last_minute_start ;;
    let wait_time := 60 - (current_time - start) in
    if Qlt_bool 0 wait_time then
      sleep_with_countdown wait_time ;;
      write (set_requests_in_last_minute 0) ;;
      t <- time_time ;;
      write (set_last_minute_start t)
    else ret tt
  else ret tt.

(** Lines 106 to 117: the minimum interval between two requests. *)
Definition interval_check (current_time : Q) : M unit :=
  last <- read last_request_time ;;
  min_interval <- read min_request_interval ;;
  let time_since_last_request := current_time - last in
  if Qlt_bool time_since_last_request min_interval then
    let wait_time := Py.int (min_interval - time_since_last_request) in
    sleep_with_countdown (inject_Z wait_time)
  else ret tt.

(** Lines 119 to 121. *)
Definition record_request : M unit :=
  t <- time_time ;;
  write (set_last_request_time t) ;;
  n <- read requests_in_last_minute ;;
  write (set_requests_in_last_minute (n + 1)) ;;
  last <- read last_request_time ;;
  min_interval <- read min_request_interval ;;
  write (set_next_available_time (last + min_interval)).

Definition wait_for_rate_limit : M unit :=
  current_time <- time_time ;;
  window_check current_time ;;
  cap_check current_time ;;
  interval_check current_time ;;
  record_request.

(** ** The regular expression of [handle_quota_error]

    [retry_delay\s*{\s*seconds:\s*(\d+)].  No character of a literal part
    is white space and [(\d+)] comes last, so taking every run of white
    space and of digits as long as it goes finds a match whenever
    there is one. *)

(** [s] after the literal [p], when [s] starts with it. *)
Fixpoint strip_prefix (p s : string) : option string :=
  match p with
  | EmptyString => Some s
  | String a p' =>
      match s with
      | EmptyString => None
      | String b s' => if Ascii.eqb a b then strip_prefix p' s' else None
      end
  end.

(** [\s*] *)
Fixpoint skip_spaces (s : string) : string :=
  match s with
  | EmptyString => EmptyString
  | String c t => if Py.isspace c then skip_spaces t else s
  end.

(** The digits [\d*] takes. *)
Fixpoint leading_digits (s : string) : string :=
  match s with
  | EmptyString => EmptyString
  | String c t => if Py.isdigit c then String c (leading_digits t) else EmptyString
  end.

(** A match that starts at the first character of [s]: its group 1. *)
Definition match_retry_delay (s : string) : option string :=
  match strip_prefix "retry_delay" s with
  | None => None
  | Some s1 =>
      match strip_prefix "{" (skip_spaces s1) with
      | None => None
      | Some s2 =>
          match strip_prefix "seconds:" (skip_spaces s2) with
          | None => None
          | Some s3 =>
              match leading_digits (skip_spaces s3) with
              | EmptyString => None
              | digits => Some digits
              end
          end
      end
  end.

(** [re.search]: the match that starts first; group 1, or [None]. *)
Fixpoint search_retry_delay (s : string) : option string :=
  match match_retry_delay s with
  | Some digits => Some digits
  | None =>
      match s with
      | EmptyString => None
      | String _ t => search_retry_delay t
      end
  end.

(** ** The quota handler *)

(** The most digits [int] reads from a string. *)
Definition max_str_digits : Z := 4300.

(** The most whole seconds [time.sleep] takes: one more and the
    nanoseconds no longer fit 63 bits. *)
Definition sleep_limit : Z := 9223372036.

(** [int(s)] of a string of decimal digits: [ValueError] when it has
    more digits than [int] reads. *)
Definition int_of_str (s : string) : result Z :=
  if (max_str_digits <? Z.of_nat (String.length s))%Z
  then Raise "Exceeds the limit (4300 digits) for integer string conversion"
  else Ok (Py.int_of_digits s).

(** Lines 157 to 164 for a whole number [n] of seconds.  The thread of
    the count-down is started first; [time.sleep(n)] then raises
    [OverflowError] when [n] is over the limit, before any time has
    gone. *)
Definition sleep_seconds_with_countdown (n : Z) : M unit :=
  fun w => if (sleep_limit <? n)%Z
           then (Raise "timestamp too large to convert to C _PyTime_t", w)
           else sleep_with_countdown (inject_Z n) w.

(** The bare [except: pass] turns every exception into [return False]. *)
Definition handle_quota_error (error_message : string) : M bool :=
  try_except
    (match search_retry_delay error_message with
     | Some group1 =>
         wait_time <- call (int_of_str group1) ;;
         sleep_seconds_with_countdown wait_time ;;
         ret true
     | None => ret false
     end)
    (fun _ => ret false).

(** ** Asking a question *)

Definition not_started_message : string :=
  "Chatbot düzgün başlatılamadı. Lütfen kurulumu kontrol edin.".

Definition error_prefix : string := "Hata oluştu: ".

Definition max_retries_message : string :=
  "Maksimum deneme sayısına ulaşıldı. Lütfen daha sonra tekrar deneyin.".

Definition newline : string := String (ascii_of_nat 10) EmptyString.

(** The f-string of lines 185 to 192. *)
Definition make_prompt (relevant_chunk question : string) : string :=
  "Aşağıdaki metin bir PDF dosyasından alınmıştır. Lütfen bu metne dayanarak soruyu yanıtlayın."
  ++ newline ++ newline ++ "PDF İçeriği:" ++ newline ++ relevant_chunk
  ++ newline ++ newline ++ "Soru: " ++ question ++ newline ++ newline
  ++ "Lütfen cevabınızı Türkçe olarak verin ve mümkün olduğunca kısa ve öz tutun. Sadece sorunun cevabına odaklanın, gereksiz detaylardan kaçının. Maksimum 2-3 cümle ile cevaplayın.".

Definition is_send (c : Call) : bool :=
  match c with CallSendMessage _ => true | _ => false end.

(** How many prompts the log says were sent. *)
Definition messages_sent (cs : list Call) : nat := List.length (filter is_send cs).

Definition is_nil {A} (l : list A) : bool :=
  match l with [] => true | _ => false end.

Definition is_none {A} (o : option A) : bool :=
  match o with None => true | _ => false end.

(** The [except Exception as e] clause, lines 206 to 217:
    [Some answer] for [return answer], [None] for
    [retry_count += 1; continue]. *)
Definition on_error (error_message : string) : M (option string) :=
  if Py.contains "quota" (Py.lower error_message) then
    retry <- handle_quota_error error_message ;;
    if retry then ret None
    else ret (Some (error_prefix ++ error_message))
  else ret (Some (error_prefix ++ error_message)).

Section Session.

(** [send_message(prompt)] of the session in [self.chat], and reading
    [response.text]: the reply text, or the exception either of them
    raises.  The first argument is the number of prompts sent before
    this one.  With [self.chat] still [None] the call raises
    [AttributeError] and nothing is sent. *)
Variable send_message : nat -> string -> result string.

Definition chat_send_message (prompt : string) : M string :=
  fun w =>
    match chat (self w) with
    | None => (Raise "'NoneType' object has no attribute 'send_message'", w)
    | Some _ =>
        (send_message (messages_sent (calls w)) prompt,
         mkWorld (self w) (now w) (CallSendMessage prompt :: calls w))
    end.

(** [self.find_relevant_chunk(question)] *)
Definition self_find_relevant_chunk (question : string) : M string :=
  chunks <- read text_chunks ;;
  fun w => (find_relevant_chunk chunks question, w).

(** The body of [try], lines 175 to 203.  The message of lines 198 to
    201 is printed only. *)
Definition try_body (question : string) : M (option string) :=
  chunks <- read text_chunks ;;
  m <- read model ;;
  if is_nil chunks || is_none m then ret (Some not_started_message)
  else
    log CallWaitForRateLimit ;;
    wait_for_rate_limit ;;
    log (CallFindRelevantChunk question) ;;
    relevant_chunk <- self_find_relevant_chunk question ;;
    let prompt := make_prompt relevant_chunk question in
    response_text <- chat_send_message prompt ;;
    ret (Some response_text).

(** One turn of the [while] loop: [Some answer] for [return answer],
    [None] for [retry_count += 1; continue]. *)
Definition attempt (question : string) : M (option string) :=
  try_except (try_body question) on_error.

(** [while retry_count < max_retries], by the turns still allowed. *)
Fixpoint ask_loop (question : string) (turns_left : nat) : M string :=
  match turns_left with
  | O => ret max_retries_message
  | S n =>
      r <- attempt question ;;
      match r with
      | Some answer => ret answer
      | None => ask_loop question n
      end
  end.

Definition ask_question (question : string) (max_retries : nat) : M string :=
  ask_loop question max_retries.

(** [chatbot.ask_question(question)], as the command loop calls it. *)
Definition ask (question : string) : M string := ask_question question 3.

End Session.

(** ** Notions the properties are stated with *)

(** Every keyword occurs in the lowered chunk. *)
Definition contains_all (keywords : list string) (chunk : string) : bool :=
  forallb (fun keyword => Py.contains keyword (Py.lower chunk)) keywords.

Definition keyword_hit (chunk keyword : string) : bool :=
  Py.contains keyword (Py.lower chunk).

Fixpoint all_chars (p : ascii -> bool) (s : string) : bool :=
  match s with
  | EmptyString => true
  | String c t => p c && all_chars p t
  end.

Definition starts_with_char (p : ascii -> bool) (s : string) : bool :=
  match s with
  | EmptyString => false
  | String c _ => p c
  end.

(** [s] begins with [retry_delay { seconds: N], white space being free
    where the pattern has [\s*], and [digits] being all of the number. *)
Definition retry_delay_at (s digits : string) : Prop :=
  exists ws1 ws2 ws3 rest,
    s = "retry_delay" ++ ws1 ++ "{" ++ ws2 ++ "seconds:" ++ ws3 ++ digits ++ rest
    /\ all_chars Py.isspace ws1 = true
    /\ all_chars Py.isspace ws2 = true
    /\ all_chars Py.isspace ws3 = true
    /\ all_chars Py.isdigit digits = true
    /\ digits <> ""
    /\ starts_with_char Py.isdigit rest = false.



(** The first place of the message that holds the pattern has the
    digits [digits]. *)
Definition first_retry_delay_digits (message digits : string) : Prop :=
  exists before rest,
    message = before ++ rest
    /\ retry_delay_at rest digits
    /\ forall b1 b2 d, before = b1 ++ b2 -> b2 <> "" ->
                       ~ retry_delay_at (b2 ++ rest) d.

(** A number the handler can wait for: [int] reads it and [time.sleep]
    takes it. *)
Definition waitable (digits : string) : Prop :=
  (Z.of_nat (String.length digits) <= max_str_digits)%Z
  /\ (Py.int_of_digits digits <= sleep_limit)%Z.

Definition waitableb (digits : string) : bool :=
  (Z.of_nat (String.length digits) <=? max_str_digits)%Z
  && (Py.int_of_digits digits <=? sleep_limit)%Z.

(** A quota error with a delay the handler can wait for. *)
Definition retryable (message : string) : Prop :=
  Py.contains "quota" (Py.lower message) = true
  /\ exists digits, first_retry_delay_digits message digits /\ waitable digits.

(** The clock moves on by [d] seconds. *)
Definition elapse (d : Q) (w : World) : World :=
  mkWorld (self w) (now w + d) (calls w).

(** The window starts again at [t]. *)
Definition reset_window (t : Q) (w : World) : World :=
  mkWorld (set_last_minute_start t (set_requests_in_last_minute 0 (self w)))
          (now w) (calls w).

(** The seconds the interval check sleeps. *)
Definition interval_wait (t : Q) (b : Chatbot) : Q :=
  if Qlt_bool (t - last_request_time b) (min_request_interval b)
  then inject_Z (Py.int (min_request_interval b - (t - last_request_time b)))
  else 0.

(** The world [record_request] leaves. *)
Definition record_at (w : World) : World :=
  mkWorld (set_next_available_time (now w + min_request_interval (self w))
             (set_requests_in_last_minute (requests_in_last_minute (self w) + 1)
                (set_last_request_time (now w) (self w))))
          (now w) (calls w).

(** What the two window checks leave as it was. *)
Definition keeps (w w' : World) : Prop :=
  calls w' = calls w
  /\ text_chunks (self w') = text_chunks (self w)
  /\ model (self w') = model (self w)
  /\ last_request_time (self w') = last_request_time (self w)
  /\ min_request_interval (self w') = min_request_interval (self w).

(** [n] requests, each made as soon as the one before is through. *)
Fixpoint requests (n : nat) : M unit :=
  match n with
  | O => ret tt
  | S k => wait_for_rate_limit ;; requests k
  end.

(** A chatbot made at time 100 and used at once; then asked again half a
    second after its first request. *)
Definition fresh_world : World := mkWorld (init 100) 100 [].

Definition after_first_request : World := snd (wait_for_rate_limit fresh_world).

Definition second_request_early : World := elapse (1 # 2) after_first_request.

(** The world fifteen requests in a row leave. *)
Definition after_fifteen_requests : World := snd (requests 15 fresh_world).

(** A chatbot with a document of one chunk and a model, its window
    opened at time 0 and five requests old, at time 60. *)
Definition loaded_chatbot : Chatbot :=
  {| text_chunks := ["The quick brown fox."];
     model := Some gemini_1_5_pro_latest;
     chat := Some chat_session;
     last_request_time := 50;
     min_request_interval := 4;
     requests_in_last_minute := 5;
     last_minute_start := 0;
     next_available_time := 54 |}.

Definition world_at_60 : World := mkWorld loaded_chatbot 60 [].


Definition always_boom (n : nat) (prompt : string) : result string :=
  Raise "boom".

(** A quota error with a delay of ten thousand million seconds. *)
Definition long_delay_message : string :=
  "429 Quota exceeded. retry_delay { seconds: 10000000000 }".



(** ** The count-down *)

(** What [show_countdown] prints: a line with the seconds left, or the
    blank line that wipes it. *)
Inductive Printed : Type :=
| PrintLeft (message : string) (i : Z)
| PrintBlank.

(** [range(n, 0, -1)] for [n] not negative. *)
Fixpoint count_down_from (n : nat) : list Z :=
  match n with
  | O => []
  | S k => Z.of_nat (S k) :: count_down_from k
  end.

(** [range(total_seconds, 0, -1)] *)
Definition range_down (total_seconds : Z) : list Z :=
  count_down_from (Z.to_nat total_seconds).

(** The loop of [show_countdown] over the seconds still to show.
    [stop_seen k] tells whether turn [k] of the loop finds
    [self.stop_countdown] set, which the thread that sleeps does.  The
    result is what is printed and the seconds slept. *)
Fixpoint countdown_loop (stop_seen : nat -> bool) (message : string)
    (turn : nat) (seconds : list Z) : list Printed * Z :=
  match seconds with
  | [] => ([], 0%Z)
  | i :: rest =>
      if stop_seen turn then ([], 0%Z)
      else
        let (printed, slept) := countdown_loop stop_seen message (S turn) rest in
        (PrintLeft message i :: printed, (1 + slept)%Z)
  end.

Definition show_countdown (stop_seen : nat -> bool) (total_seconds : Z)
    (message : string) : list Printed * Z :=
  let (printed, slept) :=
    countdown_loop stop_seen message 0 (range_down total_seconds) in
  ((printed ++ [PrintBlank])%list, slept).

(** ** Starting up *)

Definition set_text_chunks (chunks : list string) (b : Chatbot) : Chatbot :=
  mkChatbot chunks (model b) (chat b) (last_request_time b)
            (min_request_interval b) (requests_in_last_minute b)
            (last_minute_start b) (next_available_time b).

Definition set_model (m : option GenerativeModel) (b : Chatbot) : Chatbot :=
  mkChatbot (text_chunks b) m (chat b) (last_request_time b)
            (min_request_interval b) (requests_in_last_minute b)
            (last_minute_start b) (next_available_time b).

Definition set_chat (c : option ChatSession) (b : Chatbot) : Chatbot :=
  mkChatbot (text_chunks b) (model b) c (last_request_time b)
            (min_request_interval b) (requests_in_last_minute b)
            (last_minute_start b) (next_available_time b).

(** The text of line 41, [text += page.extract_text()] over the pages. *)
Definition join_pages (pages : list string) : string :=
  fold_left (fun text page => text ++ page) pages "".

Section Startup.

(** [PdfReader(path)] and [page.extract_text()] for its pages: the texts
    of the pages, or the exception one of them raises. *)
Variable read_pdf : string -> result (list string).

(** The splitter of lines 44 to 49, with its sizes 500 and 100. *)
Variable split_text : string -> result (list string).

(** [genai.configure(api_key=...)] *)
Variable genai_configure : string -> result unit.

(** [genai.GenerativeModel(name)] *)
Variable new_generative_model : string -> result GenerativeModel.

(** [model.start_chat(history=[])]; the session it returns is the one
    [send_message] speaks for. *)
Variable start_chat : GenerativeModel -> result ChatSession.

Variable send_message : nat -> string -> result string.

(** [self.pdf_path] and [self.api_key] are set by [__init__] and never
    written again; the methods take them as arguments. *)
Definition load_pdf (pdf_path : string) : M bool :=
  try_except
    (pages <- call (read_pdf pdf_path) ;;
     let text := join_pages pages in
     chunks <- call (split_text text) ;;
     write (set_text_chunks chunks) ;;
     ret true)
    (fun _ => ret false).

Definition setup_model (api_key : string) : M bool :=
  try_except
    (call (genai_configure api_key) ;;
     m <- call (new_generative_model "gemini-1.5-pro-latest") ;;
     write (set_model (Some m)) ;;
     session <- call (start_chat m) ;;
     write (set_chat (Some session)) ;;
     ret true)
    (fun _ => ret false).

Definition initialize (pdf_path api_key : string) : M bool :=
  loaded <- load_pdf pdf_path ;;
  if negb loaded then ret false
  else
    ready <- setup_model api_key ;;
    if negb ready then ret false
    else ret true.

(** ** The command loop *)

(** The [while True] loop of [main].  [inputs] are the lines [input()]
    still has to return, each with the seconds the user takes to type
    it; [input()] raises [EOFError] when there is none.  [answers] are
    the answers printed so far. *)
Fixpoint command_loop (inputs : list (Q * string)) (answers : list string)
    (w : World) : result unit * (list string * World) :=
  match inputs with
  | [] => (Raise "EOF when reading a line", (answers, w))
  | (typing, question) :: rest =>
      let w1 := elapse typing w in
      if String.eqb (Py.lower question) "quit" then (Ok tt, (answers, w1))
      else
        match ask send_message question w1 with
        | (Ok answer, w2) => command_loop rest (answers ++ [answer])%list w2
        | (Raise msg, w2) => (Raise msg, (answers, w2))
        end
  end.

(** [main], started when the clock shows [clock]. *)
Definition main (clock : Q) (inputs : list (Q * string))
  : result unit * (list string * World) :=
  let api_key := "API KEY" in
  let pdf_path := "pdf_path" in
  let chatbot := mkWorld (init clock) clock [] in
  match initialize pdf_path api_key chatbot with
  | (Ok true, w) => command_loop inputs [] w
  | (Ok false, w) => (Ok tt, ([], w))
  | (Raise msg, w) => (Raise msg, ([], w))
  end.

(** Every library called by [initialize] returns: the splitter gives
    [chunks] and the model made is [m]. *)
Definition libraries_answer (pdf_path api_key : string)
    (chunks : list string) (m : GenerativeModel) : Prop :=
  exists pages,
    read_pdf pdf_path = Ok pages
    /\ split_text (join_pages pages) = Ok chunks
    /\ genai_configure api_key = Ok tt
    /\ new_generative_model "gemini-1.5-pro-latest" = Ok m
    /\ start_chat m = Ok chat_session.

End Startup.

(** ** More notions the properties are stated with *)

(** The prompts the log says were sent, latest first. *)
Fixpoint prompts_of (cs : list Call) : list string :=
  match cs with
  | [] => []
  | CallSendMessage prompt :: rest => prompt :: prompts_of rest
  | _ :: rest => prompts_of rest
  end.

(** The prompt [ask_question] makes for a question. *)
Definition prompt_for (b : Chatbot) (question : string) : string :=
  match find_relevant_chunk (text_chunks b) question with
  | Ok chunk => make_prompt chunk question
  | Raise _ => ""
  end.

(** The seconds the cap check sleeps. *)
Definition cap_wait (t : Q) (b : Chatbot) : Q :=
  if (15 <=? requests_in_last_minute b)%Z
     && Qlt_bool (t - last_minute_start b) 60
  then 60 - (t - last_minute_start b)
  else 0.

(** Chunk [i] is the first of the chunks with the best score. *)
Definition first_best (keywords : list string) (chunks : list string)
    (i : nat) (chunk : string) : Prop :=
  nth_error chunks i = Some chunk
  /\ (forall c, In c chunks ->
        (chunk_score keywords c <= chunk_score keywords chunk)%nat)
  /\ (forall j c, (j < i)%nat -> nth_error chunks j = Some c ->
        (chunk_score keywords c < chunk_score keywords chunk)%nat).

(** A line that ends the command loop. *)
Definition is_quit (question : string) : bool :=
  String.eqb (Py.lower question) "quit".

(** The answers [ask_question] gives, with its 3 turns, to the lines
    asked one after the other, each after its time of typing and in the
    state the one before left; and the state the last one leaves. *)
Fixpoint answers_in_turn (send_message : nat -> string -> result string)
    (lines : list (Q * string)) (w : World) : list string * World :=
  match lines with
  | [] => ([], w)
  | (typing, question) :: rest =>
      match ask send_message question (elapse typing w) with
      | (Ok answer, w1) =>
          let (answers, w') := answers_in_turn send_message rest w1 in
          (answer :: answers, w')
      | (Raise _, w1) => ([], w1)
      end
  end.

(** The message of the [AttributeError] that [None.send_message] raises. *)
Definition no_chat_message : string :=
  "'NoneType' object has no attribute 'send_message'".

(** Libraries for the examples: a document of two pages cut at each
    page, and services that answer. *)
Definition two_pages (path : string) : result (list string) :=
  Ok ["The quick brown fox. "; "It jumps over the dog."].

Definition one_chunk (text : string) : result (list string) := Ok [text].

Definition no_chunk (text : string) : result (list string) := Ok [].

Definition unreadable (path : string) : result (list string) :=
  Raise "No such file or directory".

Definition configured (key : string) : result unit := Ok tt.

Definition model_made (name : string) : result GenerativeModel :=
  Ok gemini_1_5_pro_latest.

Definition chat_started (m : GenerativeModel) : result ChatSession :=
  Ok chat_session.

Definition chat_refused (m : GenerativeModel) : result ChatSession :=
  Raise "503 Service Unavailable".

Definition always_replies (n : nat) (prompt : string) : result string :=
  Ok "It jumps.".


(** * Properties *)

(** ** The relevance selector *)

Lemma chunk_score_from chunk keywords acc :
  fold_left (fun score keyword =>
               if Py.contains keyword (Py.lower chunk) then (score + 1)%nat else score)
            keywords acc
  = (acc + List.length (filter (keyword_hit chunk) keywords))%nat.
Proof.
  revert acc. induction keywords as [|kw kws IH]; intro acc; simpl.
  - lia.
  - rewrite IH. unfold keyword_hit at 2.
    destruct (Py.contains kw (Py.lower chunk)); simpl; lia.
Qed.

Lemma chunk_score_count keywords chunk :
  chunk_score keywords chunk = List.length (filter (keyword_hit chunk) keywords).
Proof. unfold chunk_score. now rewrite chunk_score_from. Qed.

Lemma chunk_score_le keywords chunk :
  (chunk_score keywords chunk <= List.length keywords)%nat.
Proof. rewrite chunk_score_count. apply filter_length_le. Qed.

Lemma filter_all_length {A} (f : A -> bool) l :
  List.length (filter f l) = List.length l -> forallb f l = true.
Proof.
  induction l as [|a l IH]; simpl; auto.
  destruct (f a); simpl; intro H.
  - apply IH. lia.
  - pose proof (filter_length_le f l). lia.
Qed.

Lemma forallb_filter_length {A} (f : A -> bool) l :
  forallb f l = true -> List.length (filter f l) = List.length l.
Proof.
  induction l as [|a l IH]; simpl; auto.
  destruct (f a); simpl; intro H; [f_equal; auto | discriminate].
Qed.

(** A chunk that holds every keyword scores the number of keywords. *)
Lemma chunk_score_full keywords chunk :
  contains_all keywords chunk = true ->
  chunk_score keywords chunk = List.length keywords.
Proof.
  intro H. rewrite chunk_score_count. now apply forallb_filter_length.
Qed.

(** A chunk that misses a keyword scores less. *)
Lemma chunk_score_partial keywords chunk :
  contains_all keywords chunk = false ->
  (chunk_score keywords chunk < List.length keywords)%nat.
Proof.
  intro H. pose proof (chunk_score_le keywords chunk) as Hle.
  destruct (Nat.eq_dec (chunk_score keywords chunk) (List.length keywords)) as [E|]; [|lia].
  rewrite chunk_score_count in E. apply filter_all_length in E.
  unfold contains_all in H. unfold keyword_hit in E. congruence.
Qed.

(** The scan keeps its pair when no chunk scores more than the best so far. *)
Lemma scan_keeps keywords chunks best :
  Forall (fun c => (chunk_score keywords c <= snd best)%nat) chunks ->
  fold_left (select_step keywords) chunks best = best.
Proof.
  revert best. induction chunks as [|c cs IH]; intros best H; simpl; auto.
  inversion H as [|? ? Hc Hcs]; subst.
  assert (E : select_step keywords best c = best).
  { unfold select_step.
    destruct (Nat.ltb_spec (snd best) (chunk_score keywords c)); [lia | reflexivity]. }
  rewrite E. now apply IH.
Qed.

(** The best score stays below a bound every chunk scanned stays below. *)
Lemma scan_below keywords chunks best bound :
  (snd best < bound)%nat ->
  Forall (fun c => (chunk_score keywords c < bound)%nat) chunks ->
  (snd (fold_left (select_step keywords) chunks best) < bound)%nat.
Proof.
  revert best. induction chunks as [|c cs IH]; intros best Hb H; simpl; auto.
  inversion H as [|? ? Hc Hcs]; subst. apply IH; auto.
  unfold select_step. destruct (snd best <? chunk_score keywords c)%nat; simpl; auto.
Qed.

(** The chunk the scan ends with is the one it started with or one it met. *)
Lemma scan_member keywords chunks best :
  fst (fold_left (select_step keywords) chunks best) = fst best \/
  In (fst (fold_left (select_step keywords) chunks best)) chunks.
Proof.
  revert best. induction chunks as [|c cs IH]; intro best; simpl; auto.
  destruct (IH (select_step keywords best c)) as [E | HIn]; auto.
  rewrite E. unfold select_step.
  destruct (snd best <? chunk_score keywords c)%nat; simpl; auto.
Qed.

(** A chunk that scores more than every other one, and more than 0, is
    the one selected. *)
Lemma scan_strict_maximum keywords before chunk after first :
  (0 < chunk_score keywords chunk)%nat ->
  Forall (fun c => (chunk_score keywords c < chunk_score keywords chunk)%nat) before ->
  Forall (fun c => (chunk_score keywords c < chunk_score keywords chunk)%nat) after ->
  fst (fold_left (select_step keywords) (before ++ chunk :: after) (first, 0%nat)) = chunk.
Proof.
  intros Hpos Hb Ha. rewrite fold_left_app. simpl.
  pose proof (scan_below keywords before (first, 0%nat) _ Hpos Hb) as Hlt.
  set (best := fold_left (select_step keywords) before (first, 0%nat)) in *.
  assert (E : select_step keywords best chunk = (chunk, chunk_score keywords chunk)).
  { unfold select_step.
    destruct (Nat.ltb_spec (snd best) (chunk_score keywords chunk)); [reflexivity | lia]. }
  rewrite E, scan_keeps; [reflexivity|].
  eapply Forall_impl; [|exact Ha]. simpl. intros; lia.
Qed.

Lemma keywords_of_short question :
  Forall (fun word => (String.length word <= 3)%nat) (Py.split (Py.lower question)) ->
  keywords_of question = [].
Proof.
  unfold keywords_of. generalize (Py.split (Py.lower question)).
  induction 1 as [|w ws Hw _ IH]; simpl; auto.
  destruct (Nat.ltb_spec 3 (String.length w)); [lia | exact IH].
Qed.

(** On the empty list of chunks [find_relevant_chunk] raises. *)
Lemma find_relevant_chunk_empty question :
  find_relevant_chunk [] question = Raise "list index out of range".
Proof. reflexivity. Qed.

Lemma find_relevant_chunk_nonempty chunks question :
  chunks <> [] -> exists chunk, find_relevant_chunk chunks question = Ok chunk.
Proof.
  destruct chunks as [|first rest]; [congruence|]. intros _.
  unfold find_relevant_chunk. eauto.
Qed.

(** C4: when no word of the lowered question, split at white space, has
    more than 3 characters, [find_relevant_chunk] returns the first chunk
    of a non-empty list of chunks. *)
Theorem first_chunk_when_no_keyword first rest question :
  Forall (fun word => (String.length word <= 3)%nat) (Py.split (Py.lower question)) ->
  find_relevant_chunk (first :: rest) question = Ok first.
Proof.
  intro H. unfold find_relevant_chunk. rewrite (keywords_of_short _ H).
  rewrite scan_keeps; [reflexivity|].
  apply Forall_forall. intros c _. simpl. unfold chunk_score. simpl. lia.
Qed.

Lemma first_chunk_when_no_keyword_witness :
  find_relevant_chunk ["alpha beta"; "the cat sat"] "The CAT sat" = Ok "alpha beta".
Proof.
  apply first_chunk_when_no_keyword. vm_compute. repeat constructor.
Defined.

(** C5: when the question has a keyword and exactly one chunk, at any
    place [i] of the list, holds all the keywords in its lowered text,
    [find_relevant_chunk] returns that chunk. *)
Theorem only_chunk_with_all_keywords chunks question i chunk :
  keywords_of question <> [] ->
  nth_error chunks i = Some chunk ->
  contains_all (keywords_of question) chunk = true ->
  (forall j other, j <> i -> nth_error chunks j = Some other ->
                   contains_all (keywords_of question) other = false) ->
  find_relevant_chunk chunks question = Ok chunk.
Proof.
  intros Hkw Hi Hall Hothers.
  destruct (nth_error_split _ _ Hi) as (before & after & -> & Hlen).
  set (kws := keywords_of question) in *.
  pose proof (chunk_score_full kws chunk Hall) as Hfull.
  assert (Hpos : (0 < chunk_score kws chunk)%nat).
  { rewrite Hfull. destruct kws; [congruence | simpl; lia]. }
  assert (Hb : Forall (fun c => (chunk_score kws c < chunk_score kws chunk)%nat) before).
  { apply Forall_forall. intros c Hc. rewrite Hfull. apply chunk_score_partial.
    destruct (In_nth_error _ _ Hc) as [j Hj].
    assert (j < List.length before)%nat by (apply nth_error_Some; congruence).
    apply (Hothers j); [lia|]. rewrite nth_error_app1; auto. }
  assert (Ha : Forall (fun c => (chunk_score kws c < chunk_score kws chunk)%nat) after).
  { apply Forall_forall. intros c Hc. rewrite Hfull. apply chunk_score_partial.
    destruct (In_nth_error _ _ Hc) as [j Hj].
    apply (Hothers (List.length before + S j)%nat); [lia|].
    rewrite nth_error_app2 by lia.
    replace (List.length before + S j - List.length before)%nat with (S j) by lia.
    exact Hj. }
  unfold find_relevant_chunk. fold kws.
  destruct (before ++ chunk :: after)%list as [|first tl] eqn:E.
  { destruct before; discriminate. }
  rewrite <- E. f_equal. now apply scan_strict_maximum.
Qed.

Lemma only_chunk_with_all_keywords_witness :
  find_relevant_chunk ["the answer"; "what answer"; "what else"] "What is the ANSWER"
  = Ok "what answer".
Proof.
  apply (only_chunk_with_all_keywords _ _ 1%nat).
  - vm_compute. discriminate.
  - reflexivity.
  - vm_compute. reflexivity.
  - intros j other Hj H.
    destruct j as [|[|[|j]]]; simpl in H; try congruence;
      try (injection H as <-; vm_compute; reflexivity).
    destruct j; discriminate.
Defined.

(** C10: on a non-empty list of chunks [find_relevant_chunk] returns, does
    not raise, and what it returns is one of the chunks. *)
Theorem find_relevant_chunk_member chunks question :
  chunks <> [] ->
  exists chunk, find_relevant_chunk chunks question = Ok chunk /\ In chunk chunks.
Proof.
  intro Hne. destruct chunks as [|first rest]; [congruence|].
  unfold find_relevant_chunk. eexists. split; [reflexivity|].
  destruct (scan_member (keywords_of question) (first :: rest) (first, 0%nat)) as [E | HIn]; auto.
  rewrite E. simpl. auto.
Qed.

Lemma find_relevant_chunk_member_witness :
  exists chunk,
    find_relevant_chunk ["the answer"; "what answer"] "What is the ANSWER" = Ok chunk
    /\ In chunk ["the answer"; "what answer"].
Proof.
  apply find_relevant_chunk_member. discriminate.
Defined.

(** ** Numbers and the clock *)

Local Open Scope Q_scope.

Lemma Qlt_bool_iff x y : Qlt_bool x y = true <-> x < y.
Proof.
  unfold Qlt_bool. rewrite negb_true_iff. split.
  - intro H. apply Qnot_le_lt. intro Hle. apply Qle_bool_iff in Hle. congruence.
  - intro H. destruct (Qle_bool y x) eqn:E; auto.
    apply Qle_bool_iff in E. apply Qlt_not_le in H. contradiction.
Qed.

Lemma Qlt_bool_false x y : Qlt_bool x y = false <-> y <= x.
Proof.
  unfold Qlt_bool. rewrite negb_false_iff. apply Qle_bool_iff.
Qed.

Lemma Qle_bool_false x y : Qle_bool x y = false <-> y < x.
Proof.
  rewrite <- Qlt_bool_iff. unfold Qlt_bool.
  destruct (Qle_bool x y); simpl; intuition congruence.
Qed.

(** On a number that is not negative [int] is the floor. *)
Lemma int_floor q : 0 <= q -> Py.int q = Qfloor q.
Proof.
  destruct q as [n d]. unfold Qle, Py.int, Qfloor. simpl. intro H.
  apply Z.quot_div_nonneg; lia.
Qed.

Lemma int_nonneg q : 0 <= q -> (0 <= Py.int q)%Z.
Proof.
  destruct q as [n d]. unfold Qle, Py.int. simpl. intro H.
  apply Z.quot_pos; lia.
Qed.

Lemma int_le q : 0 <= q -> inject_Z (Py.int q) <= q.
Proof. intro H. rewrite (int_floor q H). apply Qfloor_le. Qed.

Lemma int_gt q : 0 <= q -> q < inject_Z (Py.int q) + 1.
Proof.
  intro H. rewrite (int_floor q H).
  pose proof (Qlt_floor q) as L. rewrite inject_Z_plus in L. exact L.
Qed.

Lemma int_whole q z : q == inject_Z z -> Py.int q = z.
Proof.
  destruct q as [n d]. unfold Qeq, Py.int. simpl. intro H.
  rewrite Z.mul_1_r in H. subst n. apply Z.quot_mul. lia.
Qed.

Lemma inject_Z_nonneg z : (0 <= z)%Z -> 0 <= inject_Z z.
Proof. intro H. change 0 with (inject_Z 0). now rewrite <- Zle_Qle. Qed.

Lemma time_sleep_nonneg d w :
  0 <= d -> time_sleep d w = (Ok tt, elapse d w).
Proof.
  intro H. unfold time_sleep. apply Qlt_bool_false in H. now rewrite H.
Qed.

(** A negative sleep raises and leaves the clock alone. *)
Lemma time_sleep_negative d w :
  d < 0 -> time_sleep d w = (Raise "sleep length must be non-negative", w).
Proof.
  intro H. unfold time_sleep. apply Qlt_bool_iff in H. now rewrite H.
Qed.

(** ** The rate limiter, check by check *)

Lemma window_check_over t w :
  60 <= t - last_minute_start (self w) ->
  window_check t w = (Ok tt, reset_window t w).
Proof.
  intro H. apply Qle_bool_iff in H. unfold window_check, bind, read. now rewrite H.
Qed.

Lemma window_check_open t w :
  t - last_minute_start (self w) < 60 ->
  window_check t w = (Ok tt, w).
Proof.
  intro H. apply Qle_bool_false in H. unfold window_check, bind, read. now rewrite H.
Qed.

Lemma cap_check_below t w :
  (requests_in_last_minute (self w) < 15)%Z -> cap_check t w = (Ok tt, w).
Proof.
  intro H. unfold cap_check, bind, read.
  destruct (Z.leb_spec 15 (requests_in_last_minute (self w))); [lia | reflexivity].
Qed.

Lemma cap_check_blocks t w :
  (15 <= requests_in_last_minute (self w))%Z ->
  t - last_minute_start (self w) < 60 ->
  cap_check t w =
    (Ok tt, reset_window (now w + (60 - (t - last_minute_start (self w))))
              (elapse (60 - (t - last_minute_start (self w))) w)).
Proof.
  intros Hn Ht. unfold cap_check, bind, read.
  destruct (Z.leb_spec 15 (requests_in_last_minute (self w))); [|lia].
  assert (Hpos : 0 < 60 - (t - last_minute_start (self w))) by lra.
  pose proof Hpos as Hb. apply Qlt_bool_iff in Hb. rewrite Hb.
  unfold sleep_with_countdown. rewrite time_sleep_nonneg by lra.
  reflexivity.
Qed.

Lemma cap_check_late t w :
  (15 <= requests_in_last_minute (self w))%Z ->
  60 <= t - last_minute_start (self w) ->
  cap_check t w = (Ok tt, w).
Proof.
  intros Hn Ht. unfold cap_check, bind, read.
  destruct (Z.leb_spec 15 (requests_in_last_minute (self w))); [|lia].
  assert (Hpos : 60 - (t - last_minute_start (self w)) <= 0) by lra.
  apply Qlt_bool_false in Hpos. now rewrite Hpos.
Qed.

Lemma interval_wait_nonneg t b : 0 <= interval_wait t b.
Proof.
  unfold interval_wait.
  destruct (Qlt_bool (t - last_request_time b) (min_request_interval b)) eqn:E; [|lra].
  apply Qlt_bool_iff in E. apply inject_Z_nonneg, int_nonneg. lra.
Qed.

Lemma interval_check_ok t w :
  exists w', interval_check t w = (Ok tt, w')
             /\ self w' = self w /\ calls w' = calls w
             /\ now w' == now w + interval_wait t (self w).
Proof.
  unfold interval_check, bind, read, interval_wait.
  destruct (Qlt_bool (t - last_request_time (self w)) (min_request_interval (self w))) eqn:E.
  - apply Qlt_bool_iff in E. unfold sleep_with_countdown.
    rewrite time_sleep_nonneg by (apply inject_Z_nonneg, int_nonneg; lra).
    eexists. split; [reflexivity|]. simpl. repeat split; reflexivity.
  - exists w. repeat split; auto. lra.
Qed.

Lemma record_request_eq w : record_request w = (Ok tt, record_at w).
Proof. reflexivity. Qed.

Lemma wait_for_rate_limit_split w :
  wait_for_rate_limit w =
  match window_check (now w) w with
  | (Ok _, w1) =>
      match cap_check (now w) w1 with
      | (Ok _, w2) =>
          match interval_check (now w) w2 with
          | (Ok _, w3) => record_request w3
          | (Raise e, w3) => (Raise e, w3)
          end
      | (Raise e, w2) => (Raise e, w2)
      end
  | (Raise e, w1) => (Raise e, w1)
  end.
Proof. reflexivity. Qed.

Lemma window_check_ok t w :
  exists w', window_check t w = (Ok tt, w') /\ keeps w w' /\ now w' = now w.
Proof.
  destruct (Qlt_le_dec (t - last_minute_start (self w)) 60) as [H|H].
  - exists w. rewrite window_check_open by exact H. repeat split.
  - eexists. rewrite window_check_over by exact H. repeat split.
Qed.

Lemma cap_check_ok t w :
  exists w', cap_check t w = (Ok tt, w') /\ keeps w w' /\ now w <= now w'.
Proof.
  destruct (Z.lt_ge_cases (requests_in_last_minute (self w)) 15) as [Hn|Hn].
  - exists w. rewrite cap_check_below by exact Hn. repeat split. lra.
  - destruct (Qlt_le_dec (t - last_minute_start (self w)) 60) as [H|H].
    + eexists. rewrite cap_check_blocks by assumption.
      split; [reflexivity|]. split; [repeat split|]. simpl. lra.
    + exists w. rewrite cap_check_late by assumption. repeat split. lra.
Qed.

(** The rate limiter never raises; it stamps the request with the clock
    and leaves the document, the model and the log alone. *)
Lemma wait_for_rate_limit_ok w :
  exists w', wait_for_rate_limit w = (Ok tt, w')
    /\ calls w' = calls w
    /\ text_chunks (self w') = text_chunks (self w)
    /\ model (self w') = model (self w)
    /\ last_request_time (self w') = now w'
    /\ now w <= now w'.
Proof.
  rewrite wait_for_rate_limit_split.
  destruct (window_check_ok (now w) w) as (w1 & E1 & (K1c & K1t & K1m & _) & N1).
  destruct (cap_check_ok (now w) w1) as (w2 & E2 & (K2c & K2t & K2m & _) & N2).
  destruct (interval_check_ok (now w) w2) as (w3 & E3 & S3 & C3 & N3).
  rewrite E1, E2, E3, record_request_eq.
  eexists. split; [reflexivity|]. simpl.
  pose proof (interval_wait_nonneg (now w) (self w2)).
  rewrite N1 in N2.
  rewrite S3, C3. repeat split; try congruence. lra.
Qed.

(** ** The minimum interval *)

(** Between two requests more than [min_request_interval - 1] seconds pass. *)
Lemma interval_lower_bound w w' :
  wait_for_rate_limit w = (Ok tt, w') ->
  min_request_interval (self w) - 1 <
    last_request_time (self w') - last_request_time (self w).
Proof.
  rewrite wait_for_rate_limit_split.
  destruct (window_check_ok (now w) w) as (w1 & E1 & (_ & _ & _ & L1 & M1) & N1).
  destruct (cap_check_ok (now w) w1) as (w2 & E2 & (_ & _ & _ & L2 & M2) & N2).
  destruct (interval_check_ok (now w) w2) as (w3 & E3 & S3 & C3 & N3).
  rewrite E1, E2, E3, record_request_eq. intro H. injection H as <-. simpl.
  rewrite N1 in N2.
  rewrite N3. unfold interval_wait. rewrite L2, L1, M2, M1.
  destruct (Qlt_bool (now w - last_request_time (self w)) (min_request_interval (self w))) eqn:E.
  - apply Qlt_bool_iff in E.
    assert (G : min_request_interval (self w) - (now w - last_request_time (self w))
                < inject_Z (Py.int (min_request_interval (self w)
                                    - (now w - last_request_time (self w)))) + 1)
      by (apply int_gt; lra).
    lra.
  - apply Qlt_bool_false in E. lra.
Qed.

(** A request made with no time gone since the last one is held for all
    of the 4 seconds. *)
Lemma back_to_back_interval w w' :
  min_request_interval (self w) = 4 ->
  now w = last_request_time (self w) ->
  wait_for_rate_limit w = (Ok tt, w') ->
  4 <= last_request_time (self w') - last_request_time (self w).
Proof.
  intros Hm Hl.
  rewrite wait_for_rate_limit_split.
  destruct (window_check_ok (now w) w) as (w1 & E1 & (_ & _ & _ & L1 & M1) & N1).
  destruct (cap_check_ok (now w) w1) as (w2 & E2 & (_ & _ & _ & L2 & M2) & N2).
  destruct (interval_check_ok (now w) w2) as (w3 & E3 & S3 & C3 & N3).
  rewrite E1, E2, E3, record_request_eq. intro H. injection H as <-. simpl.
  rewrite N1 in N2.
  rewrite N3. unfold interval_wait. rewrite L2, L1, M2, M1, Hm, <- Hl.
  assert (Ei : Py.int (4 - (now w - now w)) = 4%Z).
  { apply int_whole. change (inject_Z 4) with 4. lra. }
  rewrite Ei.
  assert (Eb : Qlt_bool (now w - now w) 4 = true) by (apply Qlt_bool_iff; lra).
  rewrite Eb. change (inject_Z 4) with 4. lra.
Qed.

(** C1: the interval of 4 seconds between two requests is not kept.  A
    request made half a second after the last one has 3.5 seconds left to
    wait; [int] cuts the sleep to 3 seconds, and the request goes out 3.5
    seconds after the last one. *)
Theorem interval_check_truncates :
  exists w',
    wait_for_rate_limit second_request_early = (Ok tt, w')
    /\ now second_request_early - last_request_time (self second_request_early) == 1 # 2
    /\ last_request_time (self w') - last_request_time (self second_request_early) == 7 # 2
    /\ ~ (min_request_interval (self second_request_early)
          <= last_request_time (self w') - last_request_time (self second_request_early)).
Proof.
  eexists. split; [vm_compute; reflexivity|].
  split; [reflexivity|]. split; [reflexivity|].
  vm_compute. intro H. apply H. reflexivity.
Qed.

(** ** The cap of the window *)

(** C2: a request that finds 15 or more requests counted, in a window not
    yet 60 seconds old, sleeps in the window check until 60 seconds after
    the start of the window; there the count is set to 0 and the window
    starts again at the time it is then.  The request goes out after
    that, as the first of the new window. *)
Theorem capped_request_waits_for_window w :
  (15 <= requests_in_last_minute (self w))%Z ->
  now w - last_minute_start (self w) < 60 ->
  exists w2 w',
    bind (window_check (now w)) (fun _ => cap_check (now w)) w = (Ok tt, w2)
    /\ now w2 == last_minute_start (self w) + 60
    /\ requests_in_last_minute (self w2) = 0%Z
    /\ last_minute_start (self w2) = now w2
    /\ bind (interval_check (now w)) (fun _ => record_request) w2 = (Ok tt, w')
    /\ wait_for_rate_limit w = (Ok tt, w')
    /\ last_minute_start (self w) + 60 <= last_request_time (self w')
    /\ last_minute_start (self w') == last_minute_start (self w) + 60
    /\ requests_in_last_minute (self w') = 1%Z.
Proof.
  intros Hn Ht.
  pose proof (window_check_open (now w) w Ht) as E1.
  pose proof (cap_check_blocks (now w) w Hn Ht) as E2.
  set (w2 := reset_window _ _) in E2.
  destruct (interval_check_ok (now w) w2) as (w3 & E3 & S3 & C3 & N3).
  pose proof (interval_wait_nonneg (now w) (self w2)) as Hw.
  exists w2, (record_at w3).
  assert (N2 : now w2 == last_minute_start (self w) + 60) by (subst w2; simpl; lra).
  split. { unfold bind. now rewrite E1, E2. }
  split. { exact N2. }
  split. { reflexivity. }
  split. { reflexivity. }
  split. { unfold bind. now rewrite E3, record_request_eq. }
  split. { rewrite wait_for_rate_limit_split. now rewrite E1, E2, E3, record_request_eq. }
  simpl. rewrite S3. split; [lra|]. split; [exact N2 | reflexivity].
Qed.

Lemma capped_request_waits_for_window_witness :
  (15 <= requests_in_last_minute (self after_fifteen_requests))%Z
  /\ now after_fifteen_requests - last_minute_start (self after_fifteen_requests) < 60
  /\ exists w',
       wait_for_rate_limit after_fifteen_requests = (Ok tt, w')
       /\ last_minute_start (self after_fifteen_requests) + 60
          <= last_request_time (self w')
       /\ requests_in_last_minute (self w') = 1%Z.
Proof.
  assert (Hn : (15 <= requests_in_last_minute (self after_fifteen_requests))%Z)
    by (vm_compute; discriminate).
  assert (Ht : now after_fifteen_requests
               - last_minute_start (self after_fifteen_requests) < 60)
    by (vm_compute; reflexivity).
  split; [exact Hn|]. split; [exact Ht|].
  destruct (capped_request_waits_for_window after_fifteen_requests Hn Ht)
    as (w2 & w' & _ & _ & _ & _ & _ & E & Hl & _ & Hc).
  exists w'. auto.
Defined.

(** Sixteen requests in a row from a new chatbot: the fifteenth goes out
    at 156, the window starts again at 160 and the sixteenth goes out at
    164. *)
Example sixteen_requests_in_a_row :
  let w16 := snd (wait_for_rate_limit after_fifteen_requests) in
  requests_in_last_minute (self after_fifteen_requests) = 15%Z
  /\ last_request_time (self after_fifteen_requests) == 156
  /\ last_minute_start (self w16) == 160
  /\ last_request_time (self w16) == 164
  /\ requests_in_last_minute (self w16) = 1%Z.
Proof. vm_compute. repeat split; reflexivity. Qed.

(** ** The reset of the window *)

(** C3 (as amended): a request either finds the window 60 seconds old
    or older, and the first check sets the count to 0 and the start of
    the window to the time of the request; or it finds the window less
    than 60 seconds old, and count and start go as they are into the
    checks that follow. *)
Theorem window_check_resets_from_60_seconds w :
  wait_for_rate_limit w =
    bind (cap_check (now w))
         (fun _ => bind (interval_check (now w)) (fun _ => record_request))
         (snd (window_check (now w) w))
  /\ ((60 <= now w - last_minute_start (self w)
       /\ snd (window_check (now w) w) = reset_window (now w) w)
      \/ (now w - last_minute_start (self w) < 60
          /\ snd (window_check (now w) w) = w)).
Proof.
  split.
  - rewrite wait_for_rate_limit_split. unfold bind.
    destruct (window_check_ok (now w) w) as (w1 & E1 & _). rewrite E1. reflexivity.
  - destruct (Qlt_le_dec (now w - last_minute_start (self w)) 60) as [H|H].
    + right. split; [exact H|]. now rewrite window_check_open.
    + left. split; [exact H|]. now rewrite window_check_over.
Qed.

(** C3 as it was stated fails when exactly 60 seconds have gone: that
    is not more than 60 seconds, and yet the window is reset. *)
Lemma window_check_resets_at_60_seconds :
  ~ (60 < now world_at_60 - last_minute_start (self world_at_60))
  /\ snd (window_check (now world_at_60) world_at_60) = reset_window 60 world_at_60
  /\ requests_in_last_minute (self world_at_60) = 5%Z
  /\ requests_in_last_minute (self (snd (window_check (now world_at_60) world_at_60))) = 0%Z
  /\ snd (window_check (now world_at_60) world_at_60) <> world_at_60.
Proof.
  split. { vm_compute. discriminate. }
  split. { reflexivity. }
  split. { reflexivity. }
  split. { reflexivity. }
  intro H. apply (f_equal (fun w => requests_in_last_minute (self w))) in H.
  vm_compute in H. discriminate.
Qed.

(** ** The regular expression *)

Lemma strip_prefix_app p r : strip_prefix p (p ++ r) = Some r.
Proof.
  induction p as [|a p IH]; simpl; [reflexivity|].
  now rewrite Ascii.eqb_refl.
Qed.

Lemma strip_prefix_inv p : forall s r, strip_prefix p s = Some r -> s = p ++ r.
Proof.
  induction p as [|a p IH]; simpl; intros s r H.
  - congruence.
  - destruct s as [|b s]; [discriminate|].
    destruct (Ascii.eqb_spec a b) as [->|]; [|discriminate].
    now rewrite (IH _ _ H).
Qed.

Lemma skip_spaces_stop r : starts_with_char Py.isspace r = false -> skip_spaces r = r.
Proof. destruct r as [|c r]; simpl; [reflexivity|]. now intros ->. Qed.

Lemma skip_spaces_app ws r :
  all_chars Py.isspace ws = true ->
  starts_with_char Py.isspace r = false ->
  skip_spaces (ws ++ r) = r.
Proof.
  intros Hws Hr. induction ws as [|c ws IH]; simpl in *.
  - now apply skip_spaces_stop.
  - apply andb_true_iff in Hws as [-> Hws]. auto.
Qed.

Lemma skip_spaces_inv s :
  exists ws, all_chars Py.isspace ws = true /\ s = ws ++ skip_spaces s.
Proof.
  induction s as [|c s (ws & Hws & E)]; simpl.
  - exists "". auto.
  - destruct (Py.isspace c) eqn:Hc.
    + exists (String c ws). simpl. rewrite Hc, Hws, <- E. auto.
    + exists "". auto.
Qed.

Lemma leading_digits_app ds rest :
  all_chars Py.isdigit ds = true ->
  starts_with_char Py.isdigit rest = false ->
  leading_digits (ds ++ rest) = ds.
Proof.
  intros Hds Hr. induction ds as [|c ds IH]; simpl in *.
  - destruct rest as [|c r]; simpl in *; [reflexivity | now rewrite Hr].
  - apply andb_true_iff in Hds as [-> Hds]. now rewrite IH.
Qed.

Lemma leading_digits_inv s :
  all_chars Py.isdigit (leading_digits s) = true
  /\ exists rest, s = leading_digits s ++ rest
                  /\ starts_with_char Py.isdigit rest = false.
Proof.
  induction s as [|c s (Hd & rest & E & Hr)]; simpl.
  - split; [reflexivity|]. exists "". auto.
  - destruct (Py.isdigit c) eqn:Hc; simpl.
    + rewrite Hc, Hd. split; [reflexivity|]. exists rest. now rewrite <- E.
    + split; [reflexivity|]. exists (String c s). simpl. auto.
Qed.

Lemma digit_not_space c : Py.isdigit c = true -> Py.isspace c = false.
Proof.
  unfold Py.isdigit, Py.isspace. generalize (nat_of_ascii c). intros n H.
  apply andb_true_iff in H as [H1 H2].
  apply Nat.leb_le in H1. apply Nat.leb_le in H2.
  repeat (apply orb_false_iff; split).
  - apply andb_false_iff; right; apply Nat.leb_gt; lia.
  - apply andb_false_iff; right; apply Nat.leb_gt; lia.
  - apply Nat.eqb_neq; lia.
  - apply Nat.eqb_neq; lia.
Qed.

Lemma digits_start ds rest :
  all_chars Py.isdigit ds = true -> ds <> "" ->
  starts_with_char Py.isspace (ds ++ rest) = false.
Proof.
  destruct ds as [|c ds]; [congruence|]. simpl. intros H _.
  apply andb_true_iff in H as [H _]. now apply digit_not_space.
Qed.

(** The matcher finds the pattern where it is. *)
Lemma match_retry_delay_complete s digits :
  retry_delay_at s digits -> match_retry_delay s = Some digits.
Proof.
  intros (ws1 & ws2 & ws3 & rest & -> & H1 & H2 & H3 & Hd & Hne & Hr).
  unfold match_retry_delay.
  rewrite strip_prefix_app.
  rewrite (skip_spaces_app ws1) by (auto; reflexivity).
  rewrite strip_prefix_app.
  rewrite (skip_spaces_app ws2) by (auto; reflexivity).
  rewrite strip_prefix_app.
  rewrite (skip_spaces_app ws3) by (auto using digits_start).
  rewrite leading_digits_app by assumption.
  destruct digits; congruence.
Qed.

(** The matcher finds the pattern only where it is. *)
Lemma match_retry_delay_sound s digits :
  match_retry_delay s = Some digits -> retry_delay_at s digits.
Proof.
  unfold match_retry_delay.
  destruct (strip_prefix "retry_delay" s) as [s1|] eqn:E1; [|discriminate].
  destruct (strip_prefix "{" (skip_spaces s1)) as [s2|] eqn:E2; [|discriminate].
  destruct (strip_prefix "seconds:" (skip_spaces s2)) as [s3|] eqn:E3; [|discriminate].
  destruct (leading_digits (skip_spaces s3)) as [|d ds] eqn:E4; [discriminate|].
  intro H. injection H as <-.
  apply strip_prefix_inv in E1, E2, E3.
  destruct (skip_spaces_inv s1) as (ws1 & H1 & F1).
  destruct (skip_spaces_inv s2) as (ws2 & H2 & F2).
  destruct (skip_spaces_inv s3) as (ws3 & H3 & F3).
  destruct (leading_digits_inv (skip_spaces s3)) as (Hd & rest & F4 & Hr).
  rewrite E4 in Hd, F4.
  exists ws1, ws2, ws3, rest.
  split; [|repeat split; auto; discriminate].
  rewrite <- F4, <- F3, <- E3, <- F2, <- E2, <- F1. exact E1.
Qed.

Lemma search_retry_delay_eq s :
  search_retry_delay s =
  match match_retry_delay s with
  | Some digits => Some digits
  | None => match s with
            | EmptyString => None
            | String _ t => search_retry_delay t
            end
  end.
Proof. destruct s; reflexivity. Qed.



(** With no match before it, the first match is the one found. *)
Lemma search_retry_delay_first before rest digits :
  (forall b1 b2 d, before = b1 ++ b2 -> b2 <> "" -> ~ retry_delay_at (b2 ++ rest) d) ->
  retry_delay_at rest digits ->
  search_retry_delay (before ++ rest) = Some digits.
Proof.
  intros Hnone Hm. apply match_retry_delay_complete in Hm.
  induction before as [|c before IH].
  - change ("" ++ rest) with rest. rewrite search_retry_delay_eq. now rewrite Hm.
  - change (String c before ++ rest) with (String c (before ++ rest)).
    rewrite search_retry_delay_eq.
    destruct (match_retry_delay (String c (before ++ rest))) as [d|] eqn:E.
    + exfalso. apply (Hnone "" (String c before) d); [reflexivity | discriminate |].
      now apply match_retry_delay_sound.
    + apply IH. intros b1 b2 d -> Hne. apply (Hnone (String c b1) b2 d); auto.
Qed.




Lemma int_of_digits_nonneg s : (0 <= Py.int_of_digits s)%Z.
Proof.
  unfold Py.int_of_digits.
  assert (G : forall l acc, (0 <= acc)%Z ->
            (0 <= fold_left (fun acc c => 10 * acc + Py.digit_value c) l acc)%Z).
  { induction l as [|c l IH]; cbn [fold_left]; intros acc H; auto.
    apply IH. unfold Py.digit_value. lia. }
  apply G. lia.
Qed.

(** The rate limiter leaves [self.chat]. *)
Lemma wait_for_rate_limit_chat w w' :
  wait_for_rate_limit w = (Ok tt, w') -> chat (self w') = chat (self w).
Proof.
  rewrite wait_for_rate_limit_split.
  assert (H1 : exists w1, window_check (now w) w = (Ok tt, w1)
                          /\ chat (self w1) = chat (self w)).
  { destruct (Qlt_le_dec (now w - last_minute_start (self w)) 60) as [H|H].
    - exists w. now rewrite window_check_open.
    - eexists. rewrite window_check_over by exact H. split; reflexivity. }
  destruct H1 as (w1 & E1 & C1).
  assert (H2 : exists w2, cap_check (now w) w1 = (Ok tt, w2)
                          /\ chat (self w2) = chat (self w1)).
  { destruct (Z.lt_ge_cases (requests_in_last_minute (self w1)) 15) as [Hn|Hn].
    - exists w1. now rewrite cap_check_below.
    - destruct (Qlt_le_dec (now w - last_minute_start (self w1)) 60) as [H|H].
      + eexists. rewrite cap_check_blocks by assumption. split; reflexivity.
      + exists w1. now rewrite cap_check_late. }
  destruct H2 as (w2 & E2 & C2).
  destruct (interval_check_ok (now w) w2) as (w3 & E3 & S3 & _).
  rewrite E1, E2, E3, record_request_eq. intro H. injection H as <-.
  cbn [record_at self chat set_next_available_time set_requests_in_last_minute
       set_last_request_time]. rewrite S3. congruence.
Qed.

(** ** The quota handler *)

Lemma waitableb_spec digits : waitableb digits = true <-> waitable digits.
Proof.
  unfold waitableb, waitable. rewrite andb_true_iff, !Z.leb_le. reflexivity.
Qed.


Lemma search_of_first_retry_delay_digits message digits :
  first_retry_delay_digits message digits ->
  search_retry_delay message = Some digits.
Proof.
  intros (before & rest & -> & Hm & Hfirst).
  now apply search_retry_delay_first.
Qed.

(** The handler never raises: it sleeps for the number found and
    returns [True]; or it returns [False] at once, when nothing is found
    and when [int] or [time.sleep] refuses the number. *)
Lemma handle_quota_error_cases message w :
  handle_quota_error message w =
  match search_retry_delay message with
  | Some digits =>
      if waitableb digits
      then (Ok true, elapse (inject_Z (Py.int_of_digits digits)) w)
      else (Ok false, w)
  | None => (Ok false, w)
  end.
Proof.
  unfold handle_quota_error, try_except.
  destruct (search_retry_delay message) as [digits|]; [|reflexivity].
  unfold bind, call, int_of_str, sleep_seconds_with_countdown, waitableb.
  rewrite (Z.leb_antisym max_str_digits), (Z.leb_antisym sleep_limit).
  destruct (max_str_digits <? Z.of_nat (String.length digits))%Z; [reflexivity|].
  destruct (sleep_limit <? Py.int_of_digits digits)%Z; [reflexivity|].
  cbn [negb andb]. unfold sleep_with_countdown.
  rewrite time_sleep_nonneg by (apply inject_Z_nonneg, int_of_digits_nonneg).
  reflexivity.
Qed.





(** A quota error with no delay to read: the handler returns [False]. *)
Example quota_handler_no_delay :
  handle_quota_error "429 Quota exceeded for this project." world_at_60
  = (Ok false, world_at_60).
Proof. reflexivity. Qed.

(** ** The error clause *)



Lemma on_error_ok message w :
  exists r w', on_error message w = (Ok r, w')
               /\ self w' = self w /\ calls w' = calls w.
Proof.
  unfold on_error.
  destruct (Py.contains "quota" (Py.lower message)).
  - unfold bind. rewrite handle_quota_error_cases.
    destruct (search_retry_delay message) as [digits|];
      [destruct (waitableb digits)|];
      eexists _, _; (split; [reflexivity | split; reflexivity]).
  - eexists _, _. split; [reflexivity | split; reflexivity].
Qed.

Lemma no_chat_message_final w :
  on_error no_chat_message w = (Ok (Some (error_prefix ++ no_chat_message)), w).
Proof. reflexivity. Qed.

Section SessionProperties.

Variable send_message : nat -> string -> result string.

(** A turn of the loop on a chatbot that has not been started. *)
Lemma attempt_not_started question w :
  text_chunks (self w) = [] \/ model (self w) = None ->
  attempt send_message question w = (Ok (Some not_started_message), w).
Proof.
  intro H. unfold attempt, try_except, try_body, bind, read, ret.
  destruct H as [H|H]; rewrite H; [reflexivity|].
  destruct (text_chunks (self w)); reflexivity.
Qed.

(** A turn of the loop past the guard: the rate limiter and the
    selector, in this order, and then the send. *)
Lemma attempt_past_guard question w :
  text_chunks (self w) <> [] -> model (self w) <> None ->
  exists w1 chunk,
    wait_for_rate_limit (mkWorld (self w) (now w) (CallWaitForRateLimit :: calls w))
      = (Ok tt, w1)
    /\ text_chunks (self w1) = text_chunks (self w)
    /\ model (self w1) = model (self w)
    /\ chat (self w1) = chat (self w)
    /\ find_relevant_chunk (text_chunks (self w)) question = Ok chunk
    /\ attempt send_message question w =
       try_except
         (bind (chat_send_message send_message (make_prompt chunk question))
               (fun response_text => ret (Some response_text)))
         on_error
         (mkWorld (self w1) (now w1)
            (CallFindRelevantChunk question :: CallWaitForRateLimit :: calls w)).
Proof.
  intros Hc Hm.
  destruct (wait_for_rate_limit_ok
              (mkWorld (self w) (now w) (CallWaitForRateLimit :: calls w)))
    as (w1 & E & Hcalls & Htext & Hmodel & _).
  pose proof (wait_for_rate_limit_chat _ _ E) as Hchat.
  destruct (find_relevant_chunk_nonempty (text_chunks (self w)) question Hc)
    as (chunk & Ef).
  cbn [self calls] in Hcalls, Htext, Hmodel, Hchat.
  exists w1, chunk. repeat split; auto.
  unfold attempt, try_except, try_body, self_find_relevant_chunk, bind, read, log, ret.
  destruct (text_chunks (self w)) as [|c0 cs] eqn:Et; [congruence|].
  destruct (model (self w)) as [m|] eqn:Em; [|congruence].
  cbn [is_nil is_none orb self now calls].
  rewrite E. cbn [self now calls]. rewrite Htext, Ef, Hcalls.
  reflexivity.
Qed.

(** A turn of the loop on a chatbot that has been started: the rate
    limiter, the selector and the send, in this order, and then the
    reply or the error clause. *)
Lemma attempt_started question w :
  text_chunks (self w) <> [] -> model (self w) <> None -> chat (self w) <> None ->
  exists w1 chunk,
    wait_for_rate_limit (mkWorld (self w) (now w) (CallWaitForRateLimit :: calls w))
      = (Ok tt, w1)
    /\ text_chunks (self w1) = text_chunks (self w)
    /\ model (self w1) = model (self w)
    /\ chat (self w1) = chat (self w)
    /\ find_relevant_chunk (text_chunks (self w)) question = Ok chunk
    /\ attempt send_message question w =
       let prompt := make_prompt chunk question in
       let w2 := mkWorld (self w1) (now w1)
                   (CallSendMessage prompt :: CallFindRelevantChunk question
                      :: CallWaitForRateLimit :: calls w) in
       match send_message (messages_sent (calls w)) prompt with
       | Ok text => (Ok (Some text), w2)
       | Raise message => on_error message w2
       end.
Proof.
  intros Hc Hm Hchat.
  destruct (attempt_past_guard question w Hc Hm)
    as (w1 & chunk & E & Ht & Hmo & Hch & Ef & Ea).
  exists w1, chunk. repeat split; auto.
  rewrite Ea. unfold try_except, bind, chat_send_message, ret. cbn [self now calls].
  rewrite Hch. destruct (chat (self w)) as [session|]; [|congruence].
  cbn [messages_sent filter is_send].
  destruct (send_message _ _); reflexivity.
Qed.

(** A turn of the loop with [self.chat] still [None]: the rate limiter
    and the selector are called, nothing is sent, and the answer is the
    message of the [AttributeError] behind the prefix. *)
Lemma attempt_no_chat question w :
  text_chunks (self w) <> [] -> model (self w) <> None -> chat (self w) = None ->
  exists w1,
    wait_for_rate_limit (mkWorld (self w) (now w) (CallWaitForRateLimit :: calls w))
      = (Ok tt, w1)
    /\ attempt send_message question w =
       (Ok (Some (error_prefix ++ no_chat_message)),
        mkWorld (self w1) (now w1)
          (CallFindRelevantChunk question :: CallWaitForRateLimit :: calls w)).
Proof.
  intros Hc Hm Hchat.
  destruct (attempt_past_guard question w Hc Hm)
    as (w1 & chunk & E & _ & _ & Hch & _ & Ea).
  exists w1. split; [exact E|].
  rewrite Ea. unfold try_except, bind, chat_send_message. cbn [self now calls].
  rewrite Hch, Hchat. reflexivity.
Qed.

(** A turn of the loop never raises, and leaves document and model. *)
Lemma attempt_ok question w :
  exists r w', attempt send_message question w = (Ok r, w')
               /\ text_chunks (self w') = text_chunks (self w)
               /\ model (self w') = model (self w).
Proof.
  destruct (text_chunks (self w)) as [|c0 cs] eqn:Et.
  { rewrite attempt_not_started by auto. eauto. }
  destruct (model (self w)) as [m|] eqn:Em.
  2:{ rewrite attempt_not_started by auto. eauto. }
  destruct (chat (self w)) as [session|] eqn:Ec.
  2:{ destruct (attempt_no_chat question w) as (w1 & Ew & E);
        [congruence | congruence | exact Ec |].
      destruct (wait_for_rate_limit_ok
                  (mkWorld (self w) (now w) (CallWaitForRateLimit :: calls w)))
        as (w1' & Ew' & _ & Ht & Hm & _).
      rewrite Ew in Ew'. injection Ew' as <-. cbn [self] in Ht, Hm.
      rewrite E. eexists _, _. split; [reflexivity|]. cbn [self]. split; congruence. }
  destruct (attempt_started question w) as (w1 & chunk & _ & Ht & Hm & _ & _ & E);
    [congruence | congruence | congruence |].
  rewrite E. cbv zeta.
  destruct (send_message _ _) as [text|message].
  - eexists _, _. split; [reflexivity|]. simpl. split; congruence.
  - destruct (on_error_ok message
                (mkWorld (self w1) (now w1)
                   (CallSendMessage (make_prompt chunk question)
                      :: CallFindRelevantChunk question
                      :: CallWaitForRateLimit :: calls w)))
      as (r & w' & Eo & Hs & _).
    rewrite Eo. eexists _, _. split; [reflexivity|].
    rewrite Hs. simpl. split; congruence.
Qed.

(** [ask_question] returns a string whatever happens: nothing is raised
    to the caller. *)
Lemma ask_question_returns question max_retries w :
  exists answer w', ask_question send_message question max_retries w = (Ok answer, w').
Proof.
  unfold ask_question. revert w.
  induction max_retries as [|n IH]; intro w; cbn [ask_loop].
  - eexists _, _. reflexivity.
  - unfold bind. destruct (attempt_ok question w) as (r & w' & E & _). rewrite E.
    destruct r as [answer|]; [eexists _, _; reflexivity | apply IH].
Qed.

(** With no turn allowed the loop is not entered. *)
Remark ask_question_no_turn question w :
  ask_question send_message question 0 w = (Ok max_retries_message, w).
Proof. reflexivity. Qed.






(** C9: on a chatbot with no chunk or no model [ask_question], called
    with one turn or more (3 when the caller names none), returns the
    message that the chatbot was not started, and leaves the world as it
    was: the clock and the rate limiter untouched, and no call to the
    rate limiter, the selector or the remote session in the log.  It
    does not raise. *)
Theorem ask_before_start question n w :
  text_chunks (self w) = [] \/ model (self w) = None ->
  ask_question send_message question (S n) w = (Ok not_started_message, w).
Proof.
  intro H. unfold ask_question. cbn [ask_loop]. unfold bind.
  now rewrite attempt_not_started.
Qed.

End SessionProperties.

(** ** The properties at work *)







(** A quota error whose delay the handler cannot wait for is answered
    like any other error: the message behind the prefix, after one
    prompt. *)
Example long_delay_not_retryable : ~ retryable long_delay_message.
Proof.
  intros (_ & digits & Hf & Hw).
  apply search_of_first_retry_delay_digits in Hf.
  assert (E : search_retry_delay long_delay_message = Some "10000000000") by reflexivity.
  rewrite E in Hf. injection Hf as <-.
  apply waitableb_spec in Hw. vm_compute in Hw. discriminate.
Qed.

Lemma ask_before_start_witness :
  (text_chunks (self fresh_world) = [] \/ model (self fresh_world) = None)
  /\ ask always_boom "What does the fox do?" fresh_world
     = (Ok not_started_message, fresh_world).
Proof.
  assert (H : text_chunks (self fresh_world) = [] \/ model (self fresh_world) = None)
    by (left; reflexivity).
  split; [exact H|].
  exact (ask_before_start always_boom "What does the fox do?" 2 fresh_world H).
Defined.

(** A first question to a started chatbot with one chunk: the reply of
    the remote session is the answer. *)
Example ask_returns_reply :
  fst (ask (fun _ _ => Ok "It jumps.") "What does the fox do?" world_at_60)
  = Ok "It jumps.".
Proof. vm_compute. reflexivity. Qed.

(** * More properties *)

(** ** The rate limiter as a whole *)

(** The rate limiter never raises, so it never asks for a negative
    sleep.  It leaves the document, the model, the interval and the log;
    the clock does not go back; and on return the request is stamped
    with the clock, the next one being due an interval later. *)
Theorem rate_limiter_returns w :
  exists w',
    wait_for_rate_limit w = (Ok tt, w')
    /\ calls w' = calls w
    /\ text_chunks (self w') = text_chunks (self w)
    /\ model (self w') = model (self w)
    /\ min_request_interval (self w') = min_request_interval (self w)
    /\ now w <= now w'
    /\ last_request_time (self w') = now w'
    /\ next_available_time (self w') = now w' + min_request_interval (self w).
Proof.
  rewrite wait_for_rate_limit_split.
  destruct (window_check_ok (now w) w) as (w1 & E1 & (K1c & K1t & K1m & _ & M1) & N1).
  destruct (cap_check_ok (now w) w1) as (w2 & E2 & (K2c & K2t & K2m & _ & M2) & N2).
  destruct (interval_check_ok (now w) w2) as (w3 & E3 & S3 & C3 & N3).
  rewrite E1, E2, E3, record_request_eq.
  exists (record_at w3). split; [reflexivity|].
  pose proof (interval_wait_nonneg (now w) (self w2)) as Hw.
  rewrite N1 in N2. unfold record_at. cbn [self now calls].
  cbn [text_chunks model min_request_interval last_request_time next_available_time
       set_next_available_time set_requests_in_last_minute set_last_request_time].
  rewrite S3, C3.
  repeat split; try congruence. lra.
Qed.

Lemma rate_limiter_stamp w :
  exists w', wait_for_rate_limit w = (Ok tt, w')
             /\ last_request_time (self w') = now w'.
Proof.
  destruct (wait_for_rate_limit_ok w) as (w' & E & _ & _ & _ & Hl & _). eauto.
Qed.

(** The seconds the rate limiter sleeps: those of the cap check and
    those of the interval check, both reckoned from the time of entry. *)
Lemma wait_for_rate_limit_delay w :
  exists w',
    wait_for_rate_limit w = (Ok tt, w')
    /\ now w' == now w + cap_wait (now w) (self w) + interval_wait (now w) (self w)
    /\ requests_in_last_minute (self w') =
       (if (15 <=? requests_in_last_minute (self w))%Z
           || Qle_bool 60 (now w - last_minute_start (self w))
        then 1 else requests_in_last_minute (self w) + 1)%Z.
Proof.
  rewrite wait_for_rate_limit_split. unfold cap_wait.
  destruct (Qlt_le_dec (now w - last_minute_start (self w)) 60) as [Ht|Ht].
  - rewrite (window_check_open _ _ Ht).
    assert (Hb : Qlt_bool (now w - last_minute_start (self w)) 60 = true)
      by now apply Qlt_bool_iff.
    assert (Hc : Qle_bool 60 (now w - last_minute_start (self w)) = false)
      by now apply Qle_bool_false.
    rewrite Hb, Hc, andb_true_r, orb_false_r.
    destruct (Z.leb_spec 15 (requests_in_last_minute (self w))) as [Hn|Hn].
    + rewrite (cap_check_blocks _ _ Hn Ht).
      set (w2 := reset_window _ _).
      destruct (interval_check_ok (now w) w2) as (w3 & E3 & S3 & C3 & N3).
      rewrite E3, record_request_eq. eexists. split; [reflexivity|].
      cbn [record_at self now requests_in_last_minute set_next_available_time
           set_requests_in_last_minute]. rewrite S3.
      split; [|reflexivity]. rewrite N3. subst w2. unfold interval_wait, reset_window, elapse.
      cbn [self now last_request_time min_request_interval
           set_last_minute_start set_requests_in_last_minute]. lra.
    + rewrite (cap_check_below _ _ Hn).
      destruct (interval_check_ok (now w) w) as (w3 & E3 & S3 & C3 & N3).
      rewrite E3, record_request_eq. eexists. split; [reflexivity|].
      cbn [record_at self now requests_in_last_minute set_next_available_time
           set_requests_in_last_minute]. rewrite S3.
      split; [|reflexivity]. rewrite N3. lra.
  - rewrite (window_check_over _ _ Ht).
    assert (Hb : Qlt_bool (now w - last_minute_start (self w)) 60 = false)
      by now apply Qlt_bool_false.
    assert (Hc : Qle_bool 60 (now w - last_minute_start (self w)) = true)
      by now apply Qle_bool_iff.
    rewrite Hb, Hc, andb_false_r, orb_true_r.
    rewrite cap_check_below by (simpl; lia).
    destruct (interval_check_ok (now w) (reset_window (now w) w))
      as (w3 & E3 & S3 & C3 & N3).
    rewrite E3, record_request_eq. eexists. split; [reflexivity|].
    cbn [record_at self now requests_in_last_minute set_next_available_time
         set_requests_in_last_minute]. rewrite S3.
    split; [|reflexivity]. rewrite N3. unfold interval_wait, reset_window, elapse.
      cbn [self now last_request_time min_request_interval
           set_last_minute_start set_requests_in_last_minute]. lra.
Qed.

(** The count of the window stays within the cap: after a request it is
    at most 15, and at least 1 when it was not negative before. *)
Theorem request_count_within_cap w w' :
  (0 <= requests_in_last_minute (self w))%Z ->
  wait_for_rate_limit w = (Ok tt, w') ->
  (1 <= requests_in_last_minute (self w') <= 15)%Z.
Proof.
  intros H0 E.
  destruct (wait_for_rate_limit_delay w) as (w1 & E1 & _ & Hc).
  rewrite E in E1. injection E1 as <-. rewrite Hc.
  destruct (Z.leb_spec 15 (requests_in_last_minute (self w))); simpl.
  - lia.
  - destruct (Qle_bool 60 (now w - last_minute_start (self w))); lia.
Qed.

Lemma request_count_within_cap_witness :
  (1 <= requests_in_last_minute
          (self (snd (wait_for_rate_limit after_fifteen_requests))) <= 15)%Z.
Proof.
  apply (request_count_within_cap after_fifteen_requests).
  - vm_compute. discriminate.
  - vm_compute. reflexivity.
Defined.

(** On a chatbot whose window and last request are not in the future,
    and whose interval is not negative, the rate limiter holds a request
    for 60 seconds and one interval at most. *)
Theorem rate_limiter_delay_bounded w w' :
  last_minute_start (self w) <= now w ->
  last_request_time (self w) <= now w ->
  0 <= min_request_interval (self w) ->
  wait_for_rate_limit w = (Ok tt, w') ->
  now w' - now w <= 60 + min_request_interval (self w).
Proof.
  intros Hs Hl Hm E.
  destruct (wait_for_rate_limit_delay w) as (w1 & E1 & Hd & _).
  rewrite E in E1. injection E1 as <-. rewrite Hd.
  assert (Hc : cap_wait (now w) (self w) <= 60).
  { unfold cap_wait.
    destruct ((15 <=? requests_in_last_minute (self w))%Z
              && Qlt_bool (now w - last_minute_start (self w)) 60); lra. }
  assert (Hi : interval_wait (now w) (self w) <= min_request_interval (self w)).
  { unfold interval_wait.
    destruct (Qlt_bool (now w - last_request_time (self w))
                (min_request_interval (self w))) eqn:Eb; [|lra].
    apply Qlt_bool_iff in Eb.
    assert (G : inject_Z (Py.int (min_request_interval (self w)
                                  - (now w - last_request_time (self w))))
                <= min_request_interval (self w)
                   - (now w - last_request_time (self w)))
      by (apply int_le; lra).
    lra. }
  lra.
Qed.

Lemma rate_limiter_delay_bounded_witness :
  now (snd (wait_for_rate_limit after_fifteen_requests)) - now after_fifteen_requests
  <= 60 + min_request_interval (self after_fifteen_requests).
Proof.
  apply (rate_limiter_delay_bounded after_fifteen_requests).
  - vm_compute. discriminate.
  - vm_compute. discriminate.
  - vm_compute. discriminate.
  - vm_compute. reflexivity.
Defined.

(** A request under the cap, or in a window that is over, and made an
    interval or more after the last one, goes out at once. *)
Theorem request_goes_out_at_once w w' :
  (requests_in_last_minute (self w) < 15)%Z
  \/ 60 <= now w - last_minute_start (self w) ->
  min_request_interval (self w) <= now w - last_request_time (self w) ->
  wait_for_rate_limit w = (Ok tt, w') ->
  now w' == now w /\ last_request_time (self w') == now w.
Proof.
  intros Hcap Hint E.
  destruct (rate_limiter_stamp w) as (w2 & E2 & Hl).
  destruct (wait_for_rate_limit_delay w) as (w1 & E1 & Hd & _).
  rewrite E in E1, E2. injection E1 as <-. injection E2 as <-.
  assert (Hc : cap_wait (now w) (self w) == 0).
  { unfold cap_wait. destruct Hcap as [Hn|Ht].
    - destruct (Z.leb_spec 15 (requests_in_last_minute (self w))); [lia|].
      simpl. lra.
    - apply Qlt_bool_false in Ht. rewrite Ht, andb_false_r. lra. }
  assert (Hi : interval_wait (now w) (self w) == 0).
  { unfold interval_wait. apply Qlt_bool_false in Hint. rewrite Hint. lra. }
  rewrite Hl. split; lra.
Qed.

Lemma request_goes_out_at_once_witness :
  now (snd (wait_for_rate_limit fresh_world)) == now fresh_world
  /\ last_request_time (self (snd (wait_for_rate_limit fresh_world)))
     == now fresh_world.
Proof.
  apply (request_goes_out_at_once fresh_world).
  - left. vm_compute. reflexivity.
  - vm_compute. discriminate.
  - vm_compute. reflexivity.
Defined.

Lemma interval_lower_bound_witness :
  min_request_interval (self second_request_early) - 1
  < last_request_time (self (snd (wait_for_rate_limit second_request_early)))
    - last_request_time (self second_request_early).
Proof.
  apply (interval_lower_bound second_request_early).
  vm_compute. reflexivity.
Defined.

Lemma back_to_back_interval_witness :
  4 <= last_request_time (self (snd (wait_for_rate_limit after_first_request)))
       - last_request_time (self after_first_request).
Proof.
  apply (back_to_back_interval after_first_request).
  - reflexivity.
  - reflexivity.
  - vm_compute. reflexivity.
Defined.

(** ** The selector: the first of the best *)

Lemma first_best_next keywords chunks i best c :
  first_best keywords chunks i best ->
  exists i',
    first_best keywords (chunks ++ [c])%list i'
      (fst (select_step keywords (best, chunk_score keywords best) c))
    /\ snd (select_step keywords (best, chunk_score keywords best) c)
       = chunk_score keywords
           (fst (select_step keywords (best, chunk_score keywords best) c)).
Proof.
  intros (Hn & Hmax & Hfirst). unfold select_step. cbn [snd].
  destruct (Nat.ltb_spec (chunk_score keywords best) (chunk_score keywords c)) as [Hlt|Hle];
    cbn [fst snd].
  - exists (List.length chunks). split; [|reflexivity]. repeat split.
    + rewrite nth_error_app2 by lia. now rewrite Nat.sub_diag.
    + intros x Hx. apply in_app_or in Hx as [Hx|[<-|[]]]; [|lia].
      specialize (Hmax x Hx). lia.
    + intros j x Hj Hx. rewrite nth_error_app1 in Hx by lia.
      apply nth_error_In in Hx. specialize (Hmax x Hx). lia.
  - exists i. split; [|reflexivity]. repeat split.
    + rewrite nth_error_app1; [exact Hn|]. apply nth_error_Some. congruence.
    + intros x Hx. apply in_app_or in Hx as [Hx|[<-|[]]]; auto.
    + intros j x Hj Hx.
      assert (i < List.length chunks)%nat by (apply nth_error_Some; congruence).
      rewrite nth_error_app1 in Hx by lia. eauto.
Qed.

Lemma scan_first_best keywords rest : forall seen i best,
  first_best keywords seen i best ->
  exists i',
    first_best keywords (seen ++ rest)%list i'
      (fst (fold_left (select_step keywords) rest (best, chunk_score keywords best))).
Proof.
  induction rest as [|c rest IH]; intros seen i best H.
  - exists i. rewrite app_nil_r. exact H.
  - cbn [fold_left].
    destruct (first_best_next keywords seen i best c H) as (i1 & H1 & E1).
    destruct (select_step keywords (best, chunk_score keywords best) c)
      as [best1 score1] eqn:Es.
    cbn [fst snd] in H1, E1. subst score1.
    destruct (IH (seen ++ [c])%list i1 best1 H1) as (i' & H').
    exists i'. now rewrite <- app_assoc in H'.
Qed.

(** On a non-empty list of chunks [find_relevant_chunk] returns the
    first of the chunks that score best: no chunk scores more, and every
    chunk before it scores less. *)
Theorem find_relevant_chunk_first_best chunks question :
  chunks <> [] ->
  exists i chunk,
    find_relevant_chunk chunks question = Ok chunk
    /\ first_best (keywords_of question) chunks i chunk.
Proof.
  intro Hne. destruct chunks as [|first rest]; [congruence|].
  unfold find_relevant_chunk. cbn [fold_left].
  set (kws := keywords_of question).
  assert (H0 : first_best kws [first] 0 first).
  { repeat split.
    - intros c [<-|[]]. lia.
    - intros j c Hj. lia. }
  assert (E : select_step kws (first, 0%nat) first = (first, chunk_score kws first)).
  { unfold select_step. cbn [snd].
    destruct (Nat.ltb_spec 0 (chunk_score kws first)); [reflexivity|].
    f_equal. lia. }
  rewrite E.
  destruct (scan_first_best kws rest [first] 0%nat first H0) as (i & H).
  exists i. eexists. split; [reflexivity | exact H].
Qed.

Lemma find_relevant_chunk_first_best_witness :
  exists i chunk,
    find_relevant_chunk ["what else"; "the answer"; "what answer"; "answer what"]
      "What is the ANSWER" = Ok chunk
    /\ first_best (keywords_of "What is the ANSWER")
         ["what else"; "the answer"; "what answer"; "answer what"] i chunk.
Proof.
  apply find_relevant_chunk_first_best. discriminate.
Defined.

(** ** The quota handler as a whole *)


(** ** Asking, whatever the remote session does *)

Lemma messages_sent_prompts cs : messages_sent cs = List.length (prompts_of cs).
Proof.
  unfold messages_sent. induction cs as [|c cs IH]; [reflexivity|].
  destruct c; cbn [filter is_send prompts_of List.length]; auto.
Qed.

Lemma on_error_effects message w :
  exists r w', on_error message w = (Ok r, w')
               /\ self w' = self w /\ calls w' = calls w /\ now w <= now w'.
Proof.
  unfold on_error.
  destruct (Py.contains "quota" (Py.lower message)).
  - unfold bind. rewrite handle_quota_error_cases.
    destruct (search_retry_delay message) as [digits|];
      [destruct (waitableb digits)|].
    + pose proof (inject_Z_nonneg _ (int_of_digits_nonneg digits)) as Hd.
      eexists _, _. split; [reflexivity|]. unfold elapse. cbn [self calls now].
      repeat split. lra.
    + eexists _, _. split; [reflexivity|]. repeat split. lra.
    + eexists _, _. split; [reflexivity|]. repeat split. lra.
  - eexists _, _. split; [reflexivity|]. repeat split. lra.
Qed.

Section AskProperties.

Variable send_message : nat -> string -> result string.

(** One turn of the loop: it does not raise, keeps document and model,
    does not turn the clock back, and sends the prompt of the question
    once or not at all. *)
Lemma attempt_effects question w :
  exists r w' n,
    attempt send_message question w = (Ok r, w')
    /\ text_chunks (self w') = text_chunks (self w)
    /\ model (self w') = model (self w)
    /\ now w <= now w'
    /\ (n <= 1)%nat
    /\ prompts_of (calls w')
       = (repeat (prompt_for (self w) question) n ++ prompts_of (calls w))%list.
Proof.
  destruct (text_chunks (self w)) as [|c0 cs] eqn:Et.
  { rewrite attempt_not_started by auto. exists (Some not_started_message), w, 0%nat.
    repeat split; auto. lra. }
  destruct (model (self w)) as [m|] eqn:Em.
  2:{ rewrite attempt_not_started by auto. exists (Some not_started_message), w, 0%nat.
      repeat split; auto. lra. }
  destruct (chat (self w)) as [session|] eqn:Ec.
  2:{ destruct (attempt_no_chat send_message question w) as (w1 & Ew & E);
        [congruence | congruence | exact Ec |].
      destruct (wait_for_rate_limit_ok
                  (mkWorld (self w) (now w) (CallWaitForRateLimit :: calls w)))
        as (w1' & Ew' & _ & Ht & Hm & _ & Hnow).
      rewrite Ew in Ew'. injection Ew' as <-. cbn [self now] in Ht, Hm, Hnow.
      rewrite E. eexists _, _, 0%nat. split; [reflexivity|].
      cbn [self now calls prompts_of repeat app].
      repeat split; auto; congruence. }
  destruct (attempt_started send_message question w)
    as (w1 & chunk & Ew & Ht & Hm & _ & Ef & E); [congruence | congruence | congruence |].
  destruct (wait_for_rate_limit_ok
              (mkWorld (self w) (now w) (CallWaitForRateLimit :: calls w)))
    as (w1' & Ew' & _ & _ & _ & _ & Hnow).
  rewrite Ew in Ew'. injection Ew' as <-. cbn [now] in Hnow.
  assert (Ep : prompt_for (self w) question = make_prompt chunk question).
  { unfold prompt_for. now rewrite Ef. }
  rewrite E. cbv zeta.
  destruct (send_message _ _) as [text|message].
  - exists (Some text). eexists. exists 1%nat. split; [reflexivity|].
    cbn [self now calls prompts_of repeat app]. rewrite Ep, Et in *.
    repeat split; auto; congruence.
  - destruct (on_error_effects message
                (mkWorld (self w1) (now w1)
                   (CallSendMessage (make_prompt chunk question)
                      :: CallFindRelevantChunk question
                      :: CallWaitForRateLimit :: calls w)))
      as (r & w' & Eo & Hs & Hc & Hn).
    rewrite Eo. exists r, w', 1%nat. split; [reflexivity|].
    rewrite Hs, Hc. cbn [self now calls prompts_of repeat app] in *.
    rewrite Ep, Et in *. repeat split; auto; try congruence; lra.
Qed.

Lemma prompt_for_same b b' question :
  text_chunks b' = text_chunks b -> prompt_for b' question = prompt_for b question.
Proof. unfold prompt_for. now intros ->. Qed.

Lemma ask_loop_effects question n : forall w,
  exists answer w' k,
    ask_loop send_message question n w = (Ok answer, w')
    /\ text_chunks (self w') = text_chunks (self w)
    /\ model (self w') = model (self w)
    /\ now w <= now w'
    /\ (k <= n)%nat
    /\ prompts_of (calls w')
       = (repeat (prompt_for (self w) question) k ++ prompts_of (calls w))%list.
Proof.
  induction n as [|n IH]; intro w; cbn [ask_loop].
  - exists max_retries_message, w, 0%nat. repeat split; auto. lra.
  - unfold bind.
    destruct (attempt_effects question w) as (r & w1 & k1 & E & Ht & Hm & Hn & Hk & Hp).
    rewrite E. destruct r as [answer|].
    + exists answer, w1, k1. repeat split; auto. lia.
    + destruct (IH w1) as (answer & w' & k & E' & Ht' & Hm' & Hn' & Hk' & Hp').
      exists answer, w', (k + k1)%nat. split; [exact E'|].
      repeat split; try congruence; [lra | lia |].
      rewrite Hp', Hp, (prompt_for_same _ _ _ Ht), repeat_app. now rewrite app_assoc.
Qed.

Lemma messages_sent_after_ask question n w :
  exists k,
    messages_sent (calls (snd (ask_question send_message question n w)))
    = (k + messages_sent (calls w))%nat.
Proof.
  destruct (ask_loop_effects question n w)
    as (answer & w' & k & E & _ & _ & _ & _ & Hp).
  unfold ask_question. rewrite E. cbn [snd]. exists k.
  rewrite !messages_sent_prompts, Hp, length_app, repeat_length. reflexivity.
Qed.

(** [ask_question] returns a string whatever the remote session does and
    whatever state the chatbot is in: nothing is raised to the caller.
    It leaves the document and the model, and the clock does not go
    back. *)
Theorem ask_question_never_raises question max_retries w :
  exists answer w',
    ask_question send_message question max_retries w = (Ok answer, w')
    /\ text_chunks (self w') = text_chunks (self w)
    /\ model (self w') = model (self w)
    /\ now w <= now w'.
Proof.
  destruct (ask_loop_effects question max_retries w)
    as (answer & w' & k & E & Ht & Hm & Hn & _).
  exists answer, w'. auto.
Qed.

(** [ask_question] sends at most [max_retries] prompts, and every one
    of them is the same: the prompt made of the question and the chunk
    selected for it. *)
Theorem ask_question_repeats_one_prompt question max_retries w :
  exists k,
    (k <= max_retries)%nat
    /\ prompts_of (calls (snd (ask_question send_message question max_retries w)))
       = (repeat (prompt_for (self w) question) k ++ prompts_of (calls w))%list
    /\ messages_sent (calls (snd (ask_question send_message question max_retries w)))
       = (k + messages_sent (calls w))%nat.
Proof.
  destruct (ask_loop_effects question max_retries w)
    as (answer & w' & k & E & _ & _ & _ & Hk & Hp).
  unfold ask_question. rewrite E. cbn [snd]. exists k.
  split; [exact Hk|]. split; [exact Hp|].
  rewrite !messages_sent_prompts, Hp, length_app, repeat_length. reflexivity.
Qed.



End AskProperties.


(** ** Starting up *)

Section StartupProperties.

Variable read_pdf : string -> result (list string).
Variable split_text : string -> result (list string).
Variable genai_configure : string -> result unit.
Variable new_generative_model : string -> result GenerativeModel.
Variable start_chat : GenerativeModel -> result ChatSession.
Variable send_message : nat -> string -> result string.

Lemma load_pdf_cases pdf_path w :
  load_pdf read_pdf split_text pdf_path w =
  match read_pdf pdf_path with
  | Ok pages =>
      match split_text (join_pages pages) with
      | Ok chunks =>
          (Ok true, mkWorld (set_text_chunks chunks (self w)) (now w) (calls w))
      | Raise _ => (Ok false, w)
      end
  | Raise _ => (Ok false, w)
  end.
Proof.
  unfold load_pdf, try_except, bind, call, write, ret.
  destruct (read_pdf pdf_path) as [pages|]; [|reflexivity].
  destruct (split_text (join_pages pages)); reflexivity.
Qed.

Lemma setup_model_cases api_key w :
  setup_model genai_configure new_generative_model start_chat api_key w =
  match genai_configure api_key with
  | Ok _ =>
      match new_generative_model "gemini-1.5-pro-latest" with
      | Ok m =>
          match start_chat m with
          | Ok session =>
              (Ok true,
               mkWorld (set_chat (Some session) (set_model (Some m) (self w)))
                 (now w) (calls w))
          | Raise _ => (Ok false, mkWorld (set_model (Some m) (self w)) (now w) (calls w))
          end
      | Raise _ => (Ok false, w)
      end
  | Raise _ => (Ok false, w)
  end.
Proof.
  unfold setup_model, try_except, bind, call, write, ret.
  destruct (genai_configure api_key); [|reflexivity].
  destruct (new_generative_model "gemini-1.5-pro-latest") as [m|]; [|reflexivity].
  cbn [self now calls]. destruct (start_chat m); reflexivity.
Qed.

Lemma initialize_cases pdf_path api_key w :
  initialize read_pdf split_text genai_configure new_generative_model start_chat
    pdf_path api_key w =
  match load_pdf read_pdf split_text pdf_path w with
  | (Ok true, w1) =>
      setup_model genai_configure new_generative_model start_chat api_key w1
  | other => other
  end.
Proof.
  unfold initialize, bind, ret.
  destruct (load_pdf read_pdf split_text pdf_path w) as [[[|]|] w1]; cbn [negb];
    try reflexivity.
  destruct (setup_model genai_configure new_generative_model start_chat api_key w1)
    as [[[|]|] w2]; reflexivity.
Qed.

(** [initialize] never raises, and returns [True] exactly when every
    library it calls returns.  Whatever it returns, it leaves the clock,
    the log and the fields of the rate limiter. *)
Theorem initialize_succeeds_iff pdf_path api_key w :
  exists ok w',
    initialize read_pdf split_text genai_configure new_generative_model start_chat
      pdf_path api_key w = (Ok ok, w')
    /\ (ok = true <->
        exists chunks m,
          libraries_answer read_pdf split_text genai_configure
            new_generative_model start_chat pdf_path api_key chunks m)
    /\ now w' = now w
    /\ calls w' = calls w
    /\ last_request_time (self w') = last_request_time (self w)
    /\ requests_in_last_minute (self w') = requests_in_last_minute (self w)
    /\ last_minute_start (self w') = last_minute_start (self w).
Proof.
  rewrite initialize_cases, load_pdf_cases. unfold libraries_answer.
  destruct (read_pdf pdf_path) as [pages|e] eqn:Er.
  2:{ exists false, w. split; [reflexivity|]. repeat split; try discriminate.
      intros (chunks & m & pages & H & _). discriminate. }
  destruct (split_text (join_pages pages)) as [chunks|e] eqn:Es.
  2:{ exists false, w. split; [reflexivity|]. repeat split; try discriminate.
      intros (chunks & m & pages' & H & H' & _). congruence. }
  rewrite setup_model_cases.
  destruct (genai_configure api_key) as [[]|e] eqn:Ec.
  2:{ eexists false, _. split; [reflexivity|]. repeat split; try discriminate.
      intros (chunks' & m & pages' & _ & _ & H & _). discriminate. }
  destruct (new_generative_model "gemini-1.5-pro-latest") as [m|e] eqn:Em.
  2:{ eexists false, _. split; [reflexivity|]. repeat split; try discriminate.
      intros (chunks' & m & pages' & _ & _ & _ & H & _). discriminate. }
  destruct (start_chat m) as [[]|e] eqn:Eh.
  - eexists true, _. split; [reflexivity|]. repeat split.
    intros _. exists chunks, m, pages. auto.
  - eexists false, _. split; [reflexivity|]. repeat split; try discriminate.
    intros (chunks' & m' & pages' & _ & _ & _ & Hm & Hs). congruence.
Qed.

(** When a library raises, [initialize] returns [False] and leaves the
    clock and the log. *)
Lemma initialize_failed pdf_path api_key w :
  ~ (exists chunks m,
        libraries_answer read_pdf split_text genai_configure
          new_generative_model start_chat pdf_path api_key chunks m) ->
  exists w',
    initialize read_pdf split_text genai_configure new_generative_model start_chat
      pdf_path api_key w = (Ok false, w')
    /\ now w' = now w
    /\ calls w' = calls w.
Proof.
  intro Hfail. rewrite initialize_cases, load_pdf_cases.
  destruct (read_pdf pdf_path) as [pages|e] eqn:Er; [|exists w; auto].
  destruct (split_text (join_pages pages)) as [chunks|e] eqn:Es; [|exists w; auto].
  rewrite setup_model_cases.
  destruct (genai_configure api_key) as [[]|e] eqn:Ec;
    [|eexists; split; [reflexivity | split; reflexivity]].
  destruct (new_generative_model "gemini-1.5-pro-latest") as [m|e] eqn:Em;
    [|eexists; split; [reflexivity | split; reflexivity]].
  destruct (start_chat m) as [[]|e] eqn:Eh;
    [|eexists; split; [reflexivity | split; reflexivity]].
  exfalso. apply Hfail. exists chunks, m, pages. auto.
Qed.

Lemma initialize_started pdf_path api_key chunks m w :
  libraries_answer read_pdf split_text genai_configure new_generative_model
    start_chat pdf_path api_key chunks m ->
  initialize read_pdf split_text genai_configure new_generative_model start_chat
    pdf_path api_key w
  = (Ok true,
     mkWorld (set_chat (Some chat_session)
                (set_model (Some m) (set_text_chunks chunks (self w))))
       (now w) (calls w)).
Proof.
  intros (pages & Er & Es & Ec & Em & Eh).
  rewrite initialize_cases, load_pdf_cases, Er, Es, setup_model_cases, Ec, Em, Eh.
  reflexivity.
Qed.

(** When every library returns, [initialize] returns [True] with the
    chunks of the splitter as the document, the model made as the model
    and the session started as the chat, and nothing else changed. *)
Theorem initialize_sets_document_and_model pdf_path api_key chunks m w :
  libraries_answer read_pdf split_text genai_configure new_generative_model
    start_chat pdf_path api_key chunks m ->
  exists w',
    initialize read_pdf split_text genai_configure new_generative_model start_chat
      pdf_path api_key w = (Ok true, w')
    /\ text_chunks (self w') = chunks
    /\ model (self w') = Some m
    /\ chat (self w') = Some chat_session
    /\ w' = mkWorld (set_chat (Some chat_session)
                       (set_model (Some m) (set_text_chunks chunks (self w))))
              (now w) (calls w).
Proof.
  intro H. rewrite (initialize_started _ _ _ _ w H).
  eexists. repeat split.
Qed.

(** When the document cannot be read or cannot be split, [initialize]
    returns [False] and leaves the chatbot as it was: the model is not
    set up, whatever the model service would answer. *)
Theorem load_failure_stops_startup pdf_path api_key w :
  (forall pages, read_pdf pdf_path = Ok pages ->
                 exists e, split_text (join_pages pages) = Raise e) ->
  initialize read_pdf split_text genai_configure new_generative_model start_chat
    pdf_path api_key w = (Ok false, w).
Proof.
  intro H. rewrite initialize_cases, load_pdf_cases.
  destruct (read_pdf pdf_path) as [pages|e]; [|reflexivity].
  destruct (H pages eq_refl) as (e & ->). reflexivity.
Qed.

(** When only [start_chat] fails on a new chatbot, [initialize] returns
    [False] but leaves the document loaded and the model set, with
    [self.chat] still [None].  The guard of [ask_question] looks at
    document and model only: with a document that is not empty, a
    question asked after the failed start goes through the rate limiter
    and the selector, the send raises [AttributeError] before any prompt
    goes out, and the answer is the message of that error behind the
    prefix, after one turn. *)
Theorem failed_chat_start_passes_guard pdf_path api_key pages chunks m e w
    question n :
  chat (self w) = None ->
  read_pdf pdf_path = Ok pages ->
  split_text (join_pages pages) = Ok chunks ->
  genai_configure api_key = Ok tt ->
  new_generative_model "gemini-1.5-pro-latest" = Ok m ->
  start_chat m = Raise e ->
  chunks <> [] ->
  exists w' w'',
    initialize read_pdf split_text genai_configure new_generative_model start_chat
      pdf_path api_key w = (Ok false, w')
    /\ text_chunks (self w') = chunks
    /\ model (self w') = Some m
    /\ chat (self w') = None
    /\ ask_question send_message question (S n) w'
       = (Ok (error_prefix ++ no_chat_message), w'')
    /\ calls w''
       = CallFindRelevantChunk question :: CallWaitForRateLimit :: calls w
    /\ last_request_time (self w'') = now w''.
Proof.
  intros Hchat Er Es Ec Em Eh Hne.
  rewrite initialize_cases, load_pdf_cases, Er, Es, setup_model_cases, Ec, Em, Eh.
  set (w' := mkWorld _ _ _).
  destruct (attempt_no_chat send_message question w') as (w1 & Ew & E);
    [exact Hne | discriminate | exact Hchat |].
  exists w'. eexists. split; [reflexivity|].
  split; [reflexivity|]. split; [reflexivity|]. split; [exact Hchat|].
  unfold ask_question. cbn [ask_loop]. unfold bind. rewrite E.
  split; [reflexivity|]. split; [reflexivity|].
  destruct (wait_for_rate_limit_ok
              (mkWorld (self w') (now w') (CallWaitForRateLimit :: calls w')))
    as (w1' & Ew' & _ & _ & _ & Hstamp & _).
  rewrite Ew in Ew'. injection Ew' as <-. exact Hstamp.
Qed.

(** A document that splits into no chunk: [initialize] returns [True],
    and yet every question is answered that the chatbot was not started,
    with nothing sent and nothing changed. *)
Theorem empty_document_is_not_started pdf_path api_key m w question n :
  libraries_answer read_pdf split_text genai_configure new_generative_model
    start_chat pdf_path api_key [] m ->
  exists w',
    initialize read_pdf split_text genai_configure new_generative_model start_chat
      pdf_path api_key w = (Ok true, w')
    /\ ask_question send_message question (S n) w' = (Ok not_started_message, w').
Proof.
  intro H. rewrite (initialize_started _ _ _ _ w H).
  eexists. split; [reflexivity|].
  unfold ask_question. cbn [ask_loop]. unfold bind.
  rewrite attempt_not_started by (left; reflexivity). reflexivity.
Qed.

End StartupProperties.

(** ** The command loop *)

Section MainProperties.

Variable read_pdf : string -> result (list string).
Variable split_text : string -> result (list string).
Variable genai_configure : string -> result unit.
Variable new_generative_model : string -> result GenerativeModel.
Variable start_chat : GenerativeModel -> result ChatSession.
Variable send_message : nat -> string -> result string.

Lemma answers_in_turn_cons typing question rest w answer w1 :
  ask send_message question (elapse typing w) = (Ok answer, w1) ->
  answers_in_turn send_message ((typing, question) :: rest) w
  = (answer :: fst (answers_in_turn send_message rest w1),
     snd (answers_in_turn send_message rest w1)).
Proof.
  intro E. cbn [answers_in_turn]. rewrite E.
  destruct (answers_in_turn send_message rest w1). reflexivity.
Qed.

(** Lines that do not end the loop are answered one by one: each gets
    the answer of [ask_question], which sends 3 prompts at most; the
    loop then goes on with the lines left. *)
Lemma command_loop_answers before : forall answers0 w,
  Forall (fun line => is_quit (snd line) = false) before ->
  (forall rest,
      command_loop send_message (before ++ rest) answers0 w
      = command_loop send_message rest
          (answers0 ++ fst (answers_in_turn send_message before w))
          (snd (answers_in_turn send_message before w)))
  /\ List.length (fst (answers_in_turn send_message before w)) = List.length before
  /\ (messages_sent (calls (snd (answers_in_turn send_message before w)))
      <= messages_sent (calls w) + 3 * List.length before)%nat.
Proof.
  induction before as [|[typing question] before IH]; intros answers0 w H.
  - cbn [answers_in_turn fst snd app List.length]. split; [|split; [reflexivity | lia]].
    intro rest. now rewrite app_nil_r.
  - inversion H as [|? ? Hq Hrest]; subst. cbn [snd] in Hq. unfold is_quit in Hq.
    destruct (ask_loop_effects send_message question 3 (elapse typing w))
      as (answer & w1 & k1 & E & _ & _ & _ & Hk1 & Hp).
    assert (Hs : (messages_sent (calls w1) <= messages_sent (calls w) + 3)%nat).
    { rewrite !messages_sent_prompts, Hp, length_app, repeat_length.
      cbn [elapse calls]. lia. }
    destruct (IH (answers0 ++ [answer])%list w1 Hrest) as (Hloop & Hlen & Hsent).
    rewrite (answers_in_turn_cons typing question before w answer w1 E).
    cbn [fst snd]. split; [|split].
    + intro rest. cbn [app command_loop]. rewrite Hq.
      unfold ask, ask_question in *. rewrite E. rewrite Hloop.
      now rewrite <- app_assoc.
    + cbn [List.length]. now rewrite Hlen.
    + cbn [List.length]. lia.
Qed.

(** When [initialize] fails, [main] ends without reading a line: no
    answer is printed, nothing is sent, no time is spent. *)
Theorem main_stops_when_startup_fails clock inputs :
  ~ (exists chunks m,
        libraries_answer read_pdf split_text genai_configure
          new_generative_model start_chat "pdf_path" "API KEY" chunks m) ->
  exists w,
    main read_pdf split_text genai_configure new_generative_model start_chat
      send_message clock inputs = (Ok tt, ([], w))
    /\ calls w = []
    /\ now w = clock.
Proof.
  intro Hfail. unfold main. cbv zeta.
  destruct (initialize_failed read_pdf split_text genai_configure
              new_generative_model start_chat "pdf_path" "API KEY"
              (mkWorld (init clock) clock []) Hfail)
    as (w & E & Hnow & Hcalls).
  rewrite E. exists w. auto.
Qed.

(** After a start that went well, [main] takes the lines up to the
    first that reads "quit" in any case of letters: it prints for each of
    them, in their order, the answer [ask_question] gives it in the state
    the lines before have left, and ends at the quit line without an
    error.  That is one answer a line, and in all no more prompts than
    3 times the lines; the lines after the quit line are never read. *)
Theorem main_answers_until_quit clock chunks m before typing word rest :
  libraries_answer read_pdf split_text genai_configure new_generative_model
    start_chat "pdf_path" "API KEY" chunks m ->
  Forall (fun line => is_quit (snd line) = false) before ->
  is_quit word = true ->
  let started :=
    mkWorld (set_chat (Some chat_session)
               (set_model (Some m) (set_text_chunks chunks (init clock))))
      clock [] in
  let asked := answers_in_turn send_message before started in
  main read_pdf split_text genai_configure new_generative_model start_chat
    send_message clock (before ++ (typing, word) :: rest)
  = (Ok tt, (fst asked, elapse typing (snd asked)))
  /\ List.length (fst asked) = List.length before
  /\ (messages_sent (calls (snd asked)) <= 3 * List.length before)%nat.
Proof.
  intros Hlib Hbefore Hquit started asked. unfold main. cbv zeta.
  rewrite (initialize_started _ _ _ _ _ _ _ _ _ _ Hlib).
  cbn [self now calls]. fold started.
  destruct (command_loop_answers before [] started Hbefore) as (Hloop & Hlen & Hsent).
  fold asked in Hloop, Hlen, Hsent.
  rewrite Hloop. cbn [command_loop app]. unfold is_quit in Hquit. rewrite Hquit.
  repeat split; auto.
Qed.

(** After a start that went well, when no line reads "quit" [main]
    prints for every line, in their order, the answer [ask_question]
    gives it in the state the lines before have left, and then ends in
    the [EOFError] of [input()]. *)
Theorem main_without_quit_ends_in_eof clock chunks m inputs :
  libraries_answer read_pdf split_text genai_configure new_generative_model
    start_chat "pdf_path" "API KEY" chunks m ->
  Forall (fun line => is_quit (snd line) = false) inputs ->
  let started :=
    mkWorld (set_chat (Some chat_session)
               (set_model (Some m) (set_text_chunks chunks (init clock))))
      clock [] in
  let asked := answers_in_turn send_message inputs started in
  main read_pdf split_text genai_configure new_generative_model start_chat
    send_message clock inputs
  = (Raise "EOF when reading a line", (fst asked, snd asked))
  /\ List.length (fst asked) = List.length inputs.
Proof.
  intros Hlib Hinputs started asked. unfold main. cbv zeta.
  rewrite (initialize_started _ _ _ _ _ _ _ _ _ _ Hlib).
  cbn [self now calls]. fold started.
  destruct (command_loop_answers inputs [] started Hinputs) as (Hloop & Hlen & _).
  fold asked in Hloop, Hlen.
  specialize (Hloop []). rewrite app_nil_r in Hloop.
  rewrite Hloop. cbn [command_loop app]. auto.
Qed.

End MainProperties.

(** ** The count-down *)

Lemma countdown_loop_prefix stop_seen message seconds : forall turn,
  exists k,
    (k <= List.length seconds)%nat
    /\ countdown_loop stop_seen message turn seconds
       = (map (PrintLeft message) (firstn k seconds), Z.of_nat k)
    /\ (forall t, (t < k)%nat -> stop_seen (turn + t)%nat = false)
    /\ ((k < List.length seconds)%nat -> stop_seen (turn + k)%nat = true).
Proof.
  induction seconds as [|i rest IH]; intro turn; cbn [countdown_loop].
  - exists 0%nat. repeat split; cbn [List.length]; lia.
  - destruct (stop_seen turn) eqn:Es.
    + exists 0%nat. split; [cbn [List.length]; lia|]. split; [reflexivity|].
      split; [lia|]. intros _. now rewrite Nat.add_0_r.
    + destruct (IH (S turn)) as (k & Hk & E & Hbefore & Hat). rewrite E.
      exists (S k). split; [cbn [List.length]; lia|]. split.
      * cbn [firstn map]. f_equal. lia.
      * split.
        -- intros t Ht. destruct t as [|t]; [now rewrite Nat.add_0_r|].
           rewrite Nat.add_succ_r. apply (Hbefore t). lia.
        -- cbn [List.length]. intro Hlt. rewrite Nat.add_succ_r.
           apply Hat. lia.
Qed.

Lemma count_down_from_length n : List.length (count_down_from n) = n.
Proof. induction n as [|n IH]; cbn [count_down_from List.length]; auto. Qed.

Lemma count_down_from_nth n : forall j,
  (j < n)%nat -> nth_error (count_down_from n) j = Some (Z.of_nat n - Z.of_nat j)%Z.
Proof.
  induction n as [|n IH]; intros j Hj; [lia|].
  destruct j as [|j]; cbn [count_down_from nth_error].
  - f_equal; lia.
  - rewrite IH by lia. f_equal; lia.
Qed.

(** [show_countdown] prints the seconds left from [total_seconds]
    downwards, a line a turn, for the [k] turns that do not find the
    flag set: it stops at the first turn that finds it set, or after
    [total_seconds] turns when none does.  It always ends with the blank
    line.  It sleeps one second a line printed, so never more than
    [total_seconds]; with [total_seconds] at 0 or below it prints the
    blank line only. *)
Theorem show_countdown_counts_down stop_seen total_seconds message :
  exists k,
    (Z.of_nat k <= Z.max 0 total_seconds)%Z
    /\ (forall turn, (turn < k)%nat -> stop_seen turn = false)
    /\ ((Z.of_nat k < Z.max 0 total_seconds)%Z -> stop_seen k = true)
    /\ show_countdown stop_seen total_seconds message
       = ((map (PrintLeft message) (firstn k (range_down total_seconds))
           ++ [PrintBlank])%list, Z.of_nat k)
    /\ forall j, (j < k)%nat ->
         nth_error (fst (show_countdown stop_seen total_seconds message)) j
         = Some (PrintLeft message (total_seconds - Z.of_nat j)).
Proof.
  unfold show_countdown.
  destruct (countdown_loop_prefix stop_seen message (range_down total_seconds) 0%nat)
    as (k & Hk & E & Hbefore & Hat).
  unfold range_down in *. rewrite count_down_from_length in Hk, Hat.
  rewrite E. exists k. split; [lia|].
  split; [exact Hbefore|]. split; [intro Hlt; apply Hat; lia|].
  split; [reflexivity|].
  intros j Hj. cbn [fst].
  rewrite nth_error_app1 by (rewrite length_map, length_firstn, count_down_from_length; lia).
  rewrite nth_error_map, nth_error_firstn.
  destruct (Nat.ltb_spec j k); [|lia].
  rewrite count_down_from_nth by lia. cbn [option_map]. do 2 f_equal. lia.
Qed.

(** When no turn finds the flag set, [show_countdown] prints a line for
    every second from [total_seconds] down to 1 and sleeps that long. *)
Theorem show_countdown_runs_out stop_seen total_seconds message :
  (forall turn, stop_seen turn = false) ->
  show_countdown stop_seen total_seconds message
  = ((map (PrintLeft message) (range_down total_seconds) ++ [PrintBlank])%list,
     Z.max 0 total_seconds).
Proof.
  intro Hnever. unfold show_countdown.
  destruct (countdown_loop_prefix stop_seen message (range_down total_seconds) 0%nat)
    as (k & Hk & E & _ & Hat).
  assert (Ek : k = List.length (range_down total_seconds)).
  { destruct (Nat.eq_dec k (List.length (range_down total_seconds))) as [|Hne]; [assumption|].
    assert (Hlt : (k < List.length (range_down total_seconds))%nat) by lia.
    specialize (Hat Hlt). rewrite Hnever in Hat. discriminate. }
  rewrite E, Ek, firstn_all. f_equal.
  unfold range_down. rewrite count_down_from_length. lia.
Qed.

Lemma show_countdown_runs_out_witness :
  show_countdown (fun _ => false) 3 "Bekleniyor:"
  = ([PrintLeft "Bekleniyor:" 3; PrintLeft "Bekleniyor:" 2;
      PrintLeft "Bekleniyor:" 1; PrintBlank], 3%Z).
Proof.
  apply (show_countdown_runs_out (fun _ => false) 3 "Bekleniyor:"). reflexivity.
Defined.

(** The count-down a sleep of [d] seconds is given, of [int(d)] seconds,
    is over when the sleep is: joining its thread does not make the
    wait longer. *)
Theorem countdown_ends_within_sleep stop_seen d message :
  0 <= d ->
  inject_Z (snd (show_countdown stop_seen (Py.int d) message)) <= d.
Proof.
  intro Hd. unfold show_countdown.
  destruct (countdown_loop_prefix stop_seen message (range_down (Py.int d)) 0%nat)
    as (k & Hk & E & _ & _).
  rewrite E. cbn [snd]. unfold range_down in Hk. rewrite count_down_from_length in Hk.
  pose proof (int_nonneg d Hd) as Hn. pose proof (int_le d Hd) as Hle.
  assert (Hz : (Z.of_nat k <= Py.int d)%Z) by lia.
  rewrite Zle_Qle in Hz. lra.
Qed.

Lemma countdown_ends_within_sleep_witness :
  inject_Z (snd (show_countdown (fun _ => false) (Py.int (7 # 2)) "Bekleniyor:"))
  <= 7 # 2.
Proof.
  apply (countdown_ends_within_sleep (fun _ => false) (7 # 2)).
  vm_compute. discriminate.
Defined.

(** ** The start-up and the loop at work *)

Lemma two_pages_answer :
  libraries_answer two_pages one_chunk configured model_made chat_started
    "pdf_path" "API KEY" ["The quick brown fox. It jumps over the dog."]
    gemini_1_5_pro_latest.
Proof. exists ["The quick brown fox. "; "It jumps over the dog."]. repeat split. Qed.

Lemma empty_document_answer :
  libraries_answer two_pages no_chunk configured model_made chat_started
    "pdf_path" "API KEY" [] gemini_1_5_pro_latest.
Proof. exists ["The quick brown fox. "; "It jumps over the dog."]. repeat split. Qed.

Lemma initialize_sets_document_and_model_witness :
  exists w',
    initialize two_pages one_chunk configured model_made chat_started
      "pdf_path" "API KEY" fresh_world = (Ok true, w')
    /\ text_chunks (self w') = ["The quick brown fox. It jumps over the dog."]
    /\ model (self w') = Some gemini_1_5_pro_latest
    /\ chat (self w') = Some chat_session
    /\ w' = mkWorld (set_chat (Some chat_session)
                       (set_model (Some gemini_1_5_pro_latest)
                          (set_text_chunks
                             ["The quick brown fox. It jumps over the dog."]
                             (self fresh_world))))
              (now fresh_world) (calls fresh_world).
Proof.
  apply (initialize_sets_document_and_model two_pages one_chunk configured
           model_made chat_started "pdf_path" "API KEY").
  exact two_pages_answer.
Defined.

Lemma load_failure_stops_startup_witness :
  initialize unreadable one_chunk configured model_made chat_started
    "pdf_path" "API KEY" fresh_world = (Ok false, fresh_world).
Proof.
  apply (load_failure_stops_startup unreadable one_chunk configured model_made
           chat_started "pdf_path" "API KEY" fresh_world).
  intros pages H. discriminate.
Defined.

Lemma failed_chat_start_passes_guard_witness :
  exists w' w'',
    initialize two_pages one_chunk configured model_made chat_refused
      "pdf_path" "API KEY" fresh_world = (Ok false, w')
    /\ text_chunks (self w') = ["The quick brown fox. It jumps over the dog."]
    /\ model (self w') = Some gemini_1_5_pro_latest
    /\ chat (self w') = None
    /\ ask_question always_replies "What does the fox do?" 3 w'
       = (Ok (error_prefix ++ no_chat_message), w'')
    /\ calls w''
       = CallFindRelevantChunk "What does the fox do?"
           :: CallWaitForRateLimit :: calls fresh_world
    /\ last_request_time (self w'') = now w''.
Proof.
  apply (failed_chat_start_passes_guard two_pages one_chunk configured model_made
           chat_refused always_replies "pdf_path" "API KEY"
           ["The quick brown fox. "; "It jumps over the dog."]
           ["The quick brown fox. It jumps over the dog."]
           gemini_1_5_pro_latest "503 Service Unavailable" fresh_world
           "What does the fox do?" 2);
    try reflexivity.
  discriminate.
Defined.

Lemma empty_document_is_not_started_witness :
  exists w',
    initialize two_pages no_chunk configured model_made chat_started
      "pdf_path" "API KEY" fresh_world = (Ok true, w')
    /\ ask_question always_replies "What does the fox do?" 3 w'
       = (Ok not_started_message, w').
Proof.
  apply (empty_document_is_not_started two_pages no_chunk configured model_made
           chat_started always_replies "pdf_path" "API KEY" gemini_1_5_pro_latest
           fresh_world "What does the fox do?" 2).
  exact empty_document_answer.
Defined.

Lemma main_stops_when_startup_fails_witness :
  exists w,
    main unreadable one_chunk configured model_made chat_started always_replies
      100 [(3, "What does the fox do?")] = (Ok tt, ([], w))
    /\ calls w = []
    /\ now w = 100.
Proof.
  apply (main_stops_when_startup_fails unreadable one_chunk configured model_made
           chat_started always_replies).
  intros (chunks & m & pages & H & _). discriminate.
Defined.

Lemma main_answers_until_quit_witness :
  main two_pages one_chunk configured model_made chat_started always_replies 100
    ([(3, "What does the fox do?"); (1 # 2, "And the dog?")]
       ++ (1, "QUIT") :: [(0, "Never read")])
  = (Ok tt,
     (fst (answers_in_turn always_replies
             [(3, "What does the fox do?"); (1 # 2, "And the dog?")]
             (mkWorld (set_chat (Some chat_session)
                         (set_model (Some gemini_1_5_pro_latest)
                            (set_text_chunks
                               ["The quick brown fox. It jumps over the dog."]
                               (init 100))))
                100 [])),
      elapse 1
        (snd (answers_in_turn always_replies
                [(3, "What does the fox do?"); (1 # 2, "And the dog?")]
                (mkWorld (set_chat (Some chat_session)
                            (set_model (Some gemini_1_5_pro_latest)
                               (set_text_chunks
                                  ["The quick brown fox. It jumps over the dog."]
                                  (init 100))))
                   100 [])))))
  /\ fst (answers_in_turn always_replies
            [(3, "What does the fox do?"); (1 # 2, "And the dog?")]
            (mkWorld (set_chat (Some chat_session)
                        (set_model (Some gemini_1_5_pro_latest)
                           (set_text_chunks
                              ["The quick brown fox. It jumps over the dog."]
                              (init 100))))
               100 []))
     = ["It jumps."; "It jumps."].
Proof.
  split; [|vm_compute; reflexivity].
  apply (main_answers_until_quit two_pages one_chunk configured model_made
           chat_started always_replies 100 _ _
           [(3, "What does the fox do?"); (1 # 2, "And the dog?")] 1 "QUIT"
           [(0, "Never read")] two_pages_answer).
  - repeat constructor.
  - reflexivity.
Defined.

Lemma main_without_quit_ends_in_eof_witness :
  fst (main two_pages one_chunk configured model_made chat_started always_replies
         100 [(3, "What does the fox do?"); (1 # 2, "quit now")])
  = Raise "EOF when reading a line"
  /\ fst (snd (main two_pages one_chunk configured model_made chat_started
                 always_replies 100
                 [(3, "What does the fox do?"); (1 # 2, "quit now")]))
     = ["It jumps."; "It jumps."].
Proof.
  assert (H : Forall (fun line : Q * string => is_quit (snd line) = false)
                [(3, "What does the fox do?"); (1 # 2, "quit now")])
    by repeat constructor.
  destruct (main_without_quit_ends_in_eof two_pages one_chunk configured model_made
              chat_started always_replies 100 _ _
              [(3, "What does the fox do?"); (1 # 2, "quit now")]
              two_pages_answer H) as (E & _).
  rewrite E. cbn [fst snd]. split; [reflexivity|]. vm_compute. reflexivity.
Defined.
